(** * Job Application Tracker: a shallow embedding of [src/JobTracker.jsx]

    The React component [App] is modelled as a state machine: the React
    state cells ([db], [auth], [userId], [jobs], [loading], [showAddModal],
    [newJob]) form a record, the listener callbacks and the CRUD handlers
    are transition functions, and every call into the Firebase SDK, the
    console or the window is recorded in the list of effects a transition
    returns.  Values that the environment decides (the clock, the answer
    to [window.confirm], the random UUID, whether a promise resolves) are
    inputs of the transition. *)

From Stdlib Require Import ZArith String Ascii List Lia Bool.
From Stdlib Require Import Sorting.Sorted Sorting.Permutation.
From stdpp Require Import base option gmap strings list fin_maps.
Import ListNotations.

Local Open Scope string_scope.
Local Open Scope Z_scope.

(** ** JavaScript values *)

(** A JavaScript number, restricted to the integers and NaN: time values,
    their differences and the seconds and nanoseconds of a timestamp are
    all integral. *)
Inductive number : Type :=
| NaN
| Num (z : Z).

(** The values a field of a stored document, or an argument of a handler,
    can hold.  [VTimestamp] is a Firestore [Timestamp] read back from the
    store (the only value here with a [toDate] method); the store and the
    [Timestamp] constructor keep its seconds within the years 1 to 9999
    and its nanoseconds below 1e9, so that its date is a valid one. *)
Inductive value : Type :=
| VUndefined
| VNull
| VBool (b : bool)
| VNum (n : number)
| VStr (s : string)
| VTimestamp (seconds nanoseconds : Z).

#[global] Instance number_eq_dec : EqDecision number.
Proof. solve_decision. Defined.

#[global] Instance value_eq_dec : EqDecision value.
Proof. solve_decision. Defined.

(** JavaScript truthiness ([!x] is the negation of this). *)
Definition truthy (v : value) : bool :=
  match v with
  | VUndefined | VNull => false
  | VBool b => b
  | VNum NaN => false
  | VNum (Num z) => negb (z =? 0)
  | VStr s => negb (String.eqb s "")
  | VTimestamp _ _ => true
  end.

(** Truthiness of a string state cell. *)
Definition truthy_str (s : string) : bool := negb (String.eqb s "").

(** Strict equality [a === b] of a string with an arbitrary value. *)
Definition strict_eq_str (s : string) (v : value) : bool :=
  match v with
  | VStr s' => String.eqb s s'
  | _ => false
  end.

(** ** Status definitions *)

Record StatusOption : Type := { opt_value : string; opt_color : string }.

Definition STATUS_OPTIONS : list StatusOption :=
  [ {| opt_value := "Applied";      opt_color := "bg-blue-100 text-blue-800" |};
    {| opt_value := "Interviewing"; opt_color := "bg-purple-100 text-purple-800" |};
    {| opt_value := "Offer";        opt_color := "bg-green-100 text-green-800" |};
    {| opt_value := "Rejected";     opt_color := "bg-red-100 text-red-800" |};
    {| opt_value := "Wishlist";     opt_color := "bg-yellow-100 text-yellow-800" |} ].

Definition default_color : string := "bg-gray-100 text-gray-800".

(** [STATUS_OPTIONS.find(opt => opt.value === status)?.color || default]:
    the colour of the first matching option; [||] falls through on
    [undefined] (no match) and on the empty string. *)
Definition getStatusColor (status : value) : string :=
  match List.find (fun opt => strict_eq_str (opt_value opt) status) STATUS_OPTIONS with
  | Some opt => if truthy_str (opt_color opt) then opt_color opt else default_color
  | None => default_color
  end.

(** Membership of a value in the fixed enumeration. *)
Definition is_status (v : value) : bool :=
  existsb (fun opt => strict_eq_str (opt_value opt) v) STATUS_OPTIONS.

(** The display styles the helper can produce. *)
Definition valid_styles : list string :=
  List.map opt_color STATUS_OPTIONS ++ [default_color].

(** ** Calendar arithmetic of the [Date] object

    Time values are milliseconds since 1970-01-01T00:00:00Z.  The two
    conversions between a day number and a proleptic Gregorian date are
    the ones of ECMAScript's [MakeDay] and [YearFromTime] /
    [MonthFromTime] / [DateFromTime], computed era by era. *)

Definition msPerDay : Z := 86400000.

Definition days_from_civil (y m d : Z) : Z :=
  let y' := if m <=? 2 then y - 1 else y in
  let era := y' / 400 in
  let yoe := y' - era * 400 in
  let doy := (153 * (if m >? 2 then m - 3 else m + 9) + 2) / 5 + d - 1 in
  let doe := yoe * 365 + yoe / 4 - yoe / 100 + doy in
  era * 146097 + doe - 719468.

Definition civil_from_days (z : Z) : Z * Z * Z :=
  let z' := z + 719468 in
  let era := z' / 146097 in
  let doe := z' - era * 146097 in
  let yoe := (doe - doe / 1460 + doe / 36524 - doe / 146096) / 365 in
  let doy := doe - (365 * yoe + yoe / 4 - yoe / 100) in
  let mp := (5 * doy + 2) / 153 in
  let d := doy - (153 * mp + 2) / 5 + 1 in
  let m := if mp <? 10 then mp + 3 else mp - 9 in
  (if m <=? 2 then yoe + era * 400 + 1 else yoe + era * 400, m, d).

Definition is_leap (y : Z) : bool :=
  ((y mod 4 =? 0) && negb (y mod 100 =? 0)) || (y mod 400 =? 0).

Definition days_in_month (y m : Z) : Z :=
  if m =? 2 then (if is_leap y then 29 else 28)
  else if (m =? 4) || (m =? 6) || (m =? 9) || (m =? 11) then 30
  else 31.

(** [TimeClip]: a time value beyond 8.64e15 ms is NaN. *)
Definition TimeClip (t : Z) : number :=
  if Z.abs t <=? 8640000000000000 then Num t else NaN.

(** *** Decimal digits *)

Definition digit_char (n : Z) : ascii := ascii_of_nat (48 + Z.to_nat (n mod 10)).

(** The last [w] decimal digits of [n], most significant first. *)
Fixpoint fixed_width (w : nat) (n : Z) : string :=
  match w with
  | O => ""
  | S w' => fixed_width w' (n / 10) ++ String (digit_char n) ""
  end.

Definition is_digit (c : ascii) : bool :=
  (48 <=? nat_of_ascii c)%nat && (nat_of_ascii c <=? 57)%nat.

Fixpoint digits_acc (s : string) (acc : Z) : option Z :=
  match s with
  | EmptyString => Some acc
  | String c s' =>
      if is_digit c then digits_acc s' (acc * 10 + Z.of_nat (nat_of_ascii c - 48))
      else None
  end.

(** The value of a non-empty string of decimal digits. *)
Definition digits_value (s : string) : option Z :=
  match s with
  | EmptyString => None
  | _ => digits_acc s 0
  end.

(** [s.substring(from)] *)
Definition string_from (from : nat) (s : string) : string :=
  String.substring from (String.length s - from) s.

(** *** [Date.prototype.toISOString]

    [YYYY-MM-DDTHH:mm:ss.sssZ], the year written with a sign and six
    digits outside 0..9999.  The receiver is a valid date. *)
Definition toISOString (t : Z) : string :=
  let '(y, m, d) := civil_from_days (t / msPerDay) in
  let r := t mod msPerDay in
  let year :=
    if (0 <=? y) && (y <=? 9999) then fixed_width 4 y
    else (if y <? 0 then "-" else "+") ++ fixed_width 6 (Z.abs y) in
  year ++ "-" ++ fixed_width 2 m ++ "-" ++ fixed_width 2 d ++ "T"
    ++ fixed_width 2 (r / 3600000) ++ ":" ++ fixed_width 2 (r / 60000 mod 60) ++ ":"
    ++ fixed_width 2 (r / 1000 mod 60) ++ "." ++ fixed_width 3 (r mod 1000) ++ "Z".

(** [d.toISOString().substring(0, 10)] *)
Definition iso_date_prefix (t : Z) : string :=
  String.substring 0 10 (toISOString t).

(** *** The date-only forms of the ECMAScript date-time string format

    [YYYY], [YYYY-MM] and [YYYY-MM-DD], the year possibly expanded to a
    sign and six digits; they denote midnight UTC.  An element out of
    range makes the string no instance of the format. *)
Definition parse_iso_year (s : string) : option (Z * string) :=
  match s with
  | String c _ =>
      if Ascii.eqb c "+" || Ascii.eqb c "-" then
        match digits_value (String.substring 1 6 s) with
        | Some y =>
            if (String.length (String.substring 1 6 s) =? 6)%nat then
              if Ascii.eqb c "-" then
                (if y =? 0 then None else Some (- y, string_from 7 s))
              else Some (y, string_from 7 s)
            else None
        | None => None
        end
      else
        match digits_value (String.substring 0 4 s) with
        | Some y =>
            if (String.length (String.substring 0 4 s) =? 4)%nat
            then Some (y, string_from 4 s) else None
        | None => None
        end
  | EmptyString => None
  end.

(** ["-NN"] followed by the rest. *)
Definition parse_dash2 (s : string) : option (Z * string) :=
  match s with
  | String c _ =>
      if Ascii.eqb c "-" then
        match digits_value (String.substring 1 2 s) with
        | Some n =>
            if (String.length (String.substring 1 2 s) =? 2)%nat
            then Some (n, string_from 3 s) else None
        | None => None
        end
      else None
  | EmptyString => None
  end.

Definition utc_midnight (y m d : Z) : number :=
  if (1 <=? m) && (m <=? 12) && (1 <=? d) && (d <=? days_in_month y m)
  then TimeClip (days_from_civil y m d * msPerDay)
  else NaN.

(** [None]: the string is not a date-only instance of the format. *)
Definition parse_iso_date (s : string) : option Z :=
  match parse_iso_year s with
  | None => None
  | Some (y, r1) =>
      let finish m d :=
        match utc_midnight y m d with Num t => Some t | NaN => None end in
      if String.eqb r1 "" then finish 1 1 else
      match parse_dash2 r1 with
      | None => None
      | Some (m, r2) =>
          if String.eqb r2 "" then finish m 1 else
          match parse_dash2 r2 with
          | None => None
          | Some (d, r3) => if String.eqb r3 "" then finish m d else None
          end
      end
  end.

(** *** The value of an [<input type="date">]

    The browser keeps the value of a date input sanitised: a string that
    is not a valid date string (a year of four or more digits above zero,
    a month and a day of that month) is replaced by the empty string. *)
Fixpoint take_digits (s : string) : string * string :=
  match s with
  | EmptyString => ("", "")
  | String c s' =>
      if is_digit c then let '(ds, r) := take_digits s' in (String c ds, r)
      else ("", s)
  end.

Definition valid_date_string (s : string) : bool :=
  let '(ys, r1) := take_digits s in
  match digits_value ys, parse_dash2 r1 with
  | Some y, Some (m, r2) =>
      match parse_dash2 r2 with
      | Some (d, r3) =>
          (4 <=? String.length ys)%nat && (0 <? y) && String.eqb r3 ""
          && (1 <=? m) && (m <=? 12) && (1 <=? d) && (d <=? days_in_month y m)
      | None => false
      end
  | _, _ => false
  end.

Definition date_input_value (s : string) : string :=
  if valid_date_string s then s else "".

(** ** Firestore timestamps *)

(** A [Timestamp] object built on the client; its fields are plain
    JavaScript numbers. *)
Record Timestamp : Type := { seconds : number; nanoseconds : number }.

Definition MIN_SECONDS : Z := -62135596800.

(** [Timestamp.fromMillis(ms)]: [seconds = floor(ms / 1000)],
    [nanoseconds = floor((ms - seconds * 1000) * 1e6)], then the
    constructor's range checks, which throw ([None]).  Every comparison
    with NaN is false, so a timestamp of NaN passes them. *)
Definition Timestamp_fromMillis (ms : number) : option Timestamp :=
  match ms with
  | NaN => Some {| seconds := NaN; nanoseconds := NaN |}
  | Num t =>
      let s := t / 1000 in
      let n := (t - s * 1000) * 1000000 in
      if (n <? 0) || (n >=? 1000000000) || (s <? MIN_SECONDS) || (s >=? 253402300800)
      then None
      else Some {| seconds := Num s; nanoseconds := Num n |}
  end.

(** [Timestamp.fromDate(date)] is [fromMillis(date.getTime())]; a date is
    represented by its time value. *)
Definition Timestamp_fromDate (date : number) : option Timestamp :=
  Timestamp_fromMillis date.

(** [Timestamp.now()] at clock reading [now]. *)
Definition Timestamp_now (now : Z) : option Timestamp :=
  Timestamp_fromMillis (Num now).

(** [ts.toDate()] of a stored timestamp: [new Date(seconds * 1000 +
    nanoseconds / 1e6)], the fraction truncated toward zero.  The sum is
    computed exactly here.  The library computes it in double precision,
    which is the same number when [nanoseconds] is a whole number of
    milliseconds; on other timestamps the double can round up to the
    next millisecond (seconds 1709683199 with nanoseconds 999999999 give
    1709683200000 there, 1709683199999 here), so what is stated of the
    time value of a timestamp is stated of whole milliseconds. *)
Definition Timestamp_toDate (secs nanos : Z) : Z :=
  Z.quot (secs * 1000000000 + nanos) 1000000.

(** ** Documents and mirrored records *)

(** A document of a snapshot: [doc.id] and [doc.data()]. *)
Record Doc : Type := { doc_id : string; doc_data : gmap string value }.

(** Reading a property of an object: an absent key reads [undefined]. *)
Definition get_field (o : gmap string value) (k : string) : value :=
  default VUndefined (o !! k).

(** [v?.toDate ? v.toDate().toISOString().substring(0, 10) : v]: only a
    timestamp has a [toDate]. *)
Definition convert_appliedDate (v : value) : value :=
  match v with
  | VTimestamp s n => VStr (iso_date_prefix (Timestamp_toDate s n))
  | _ => v
  end.

(** The object literal of the snapshot listener,
    [{ id: doc.id, ...doc.data(), appliedDate: <converted> }]:
    later properties overwrite earlier ones. *)
Definition mirror_doc (d : Doc) : gmap string value :=
  <["appliedDate" := convert_appliedDate (get_field (doc_data d) "appliedDate")]>
    (doc_data d ∪ {["id" := VStr (doc_id d)]}).

(** ** [Array.prototype.sort]

    The comparator's result goes through [SortCompare]: NaN counts as
    [+0].  The sort itself is the runtime's.  With a consistent
    comparator the language fixes its result: sorted, the elements that
    tie in their order of before.  With another comparator the order is
    left to the runtime.  The model is an insertion sort, an element
    moving past the ones it compares strictly greater than: the result of
    every runtime in the first case, one of the permitted results in the
    second, where a runtime that inserts by bisection can return
    another. *)
Definition SortCompare {A} (comparefn : A -> A -> number) (x y : A) : Z :=
  match comparefn x y with
  | NaN => 0
  | Num v => v
  end.

Fixpoint sort_insert {A} (comparefn : A -> A -> number) (x : A) (l : list A) : list A :=
  match l with
  | [] => [x]
  | y :: l' =>
      if SortCompare comparefn x y >? 0
      then y :: sort_insert comparefn x l'
      else x :: l
  end.

Fixpoint Array_sort {A} (comparefn : A -> A -> number) (l : list A) : list A :=
  match l with
  | [] => []
  | x :: l' => sort_insert comparefn x (Array_sort comparefn l')
  end.

(** [x - y] on numbers. *)
Definition number_sub (x y : number) : number :=
  match x, y with
  | Num a, Num b => Num (a - b)
  | _, _ => NaN
  end.

(** ** The form and the records written *)

(** The [newJob] state cell. *)
Record NewJob : Type := {
  company : string;
  title : string;
  status : string;
  appliedDate : string;
  notes : string;
  postingLink : string;
  documentsUsed : string
}.

(** [jobToAdd]: [{ ...newJob, appliedDate: <Timestamp>, createdAt: <Timestamp> }]. *)
Record JobToAdd : Type := {
  add_company : string;
  add_title : string;
  add_status : string;
  add_appliedDate : Timestamp;
  add_notes : string;
  add_postingLink : string;
  add_documentsUsed : string;
  add_createdAt : Timestamp
}.

(** The form fields an [onChange] handler rewrites with
    [setNewJob({ ...newJob, <field>: e.target.value })]. *)
Inductive Field : Type :=
| FCompany | FTitle | FStatus | FAppliedDate | FNotes | FPostingLink | FDocumentsUsed.

Definition set_field (f : Field) (v : string) (j : NewJob) : NewJob :=
  match f with
  | FCompany => {| company := v; title := title j; status := status j;
                   appliedDate := appliedDate j; notes := notes j;
                   postingLink := postingLink j; documentsUsed := documentsUsed j |}
  | FTitle => {| company := company j; title := v; status := status j;
                 appliedDate := appliedDate j; notes := notes j;
                 postingLink := postingLink j; documentsUsed := documentsUsed j |}
  | FStatus => {| company := company j; title := title j; status := v;
                  appliedDate := appliedDate j; notes := notes j;
                  postingLink := postingLink j; documentsUsed := documentsUsed j |}
  | FAppliedDate => {| company := company j; title := title j; status := status j;
                       appliedDate := v; notes := notes j;
                       postingLink := postingLink j; documentsUsed := documentsUsed j |}
  | FNotes => {| company := company j; title := title j; status := status j;
                 appliedDate := appliedDate j; notes := v;
                 postingLink := postingLink j; documentsUsed := documentsUsed j |}
  | FPostingLink => {| company := company j; title := title j; status := status j;
                       appliedDate := appliedDate j; notes := notes j;
                       postingLink := v; documentsUsed := documentsUsed j |}
  | FDocumentsUsed => {| company := company j; title := title j; status := status j;
                         appliedDate := appliedDate j; notes := notes j;
                         postingLink := postingLink j; documentsUsed := v |}
  end.

(** The initial and the reset value of [newJob], at clock reading [now]. *)
Definition blank_job (now : Z) : NewJob :=
  {| company := ""; title := ""; status := "Applied";
     appliedDate := iso_date_prefix now;
     notes := ""; postingLink := ""; documentsUsed := "" |}.

(** ** Effects

    Every call that leaves the component.  [doc(db, path, id)] followed by
    a call on the reference is recorded as one effect on the document path
    [path/id]. *)
Definition Config : Type := string.

Inductive effect : Type :=
| ConsoleError (msg : string)
| SetLogLevel (level : string)
| InitializeApp (cfg : Config)
| SignInWithCustomToken (token : string)
| SignInAnonymously
| OnAuthStateChanged
| OnSnapshot (path : string)
| Unsubscribe (path : string)
| AddDoc (path : string) (job : JobToAdd)
| UpdateDoc (path : string) (fields : gmap string value)
| DeleteDoc (path : string)
| Confirm (msg : string)
| PreventDefault
| Uncaught.

(** The writes, and the data operations (the writes and the opening of the
    subscription). *)
Definition is_write (e : effect) : bool :=
  match e with
  | AddDoc _ _ | UpdateDoc _ _ | DeleteDoc _ => true
  | _ => false
  end.

Definition is_data_op (e : effect) : bool :=
  match e with
  | OnSnapshot _ => true
  | _ => is_write e
  end.

Definition doc_path (collectionPath id : string) : string :=
  collectionPath ++ "/" ++ id.

(** ** The component's state

    The seven [useState] cells, and the two registrations the effects
    hold: the identity listener and the path of the open subscription. *)
Record State : Type := {
  db : option Config;
  auth : option Config;
  userId : option string;
  jobs : list (gmap string value);
  loading : bool;
  showAddModal : bool;
  newJob : NewJob;
  authListener : bool;
  subscription : option string
}.

Definition set_loading (b : bool) (st : State) : State :=
  {| db := db st; auth := auth st; userId := userId st; jobs := jobs st;
     loading := b; showAddModal := showAddModal st; newJob := newJob st;
     authListener := authListener st; subscription := subscription st |}.

Definition set_userId (u : string) (st : State) : State :=
  {| db := db st; auth := auth st; userId := Some u; jobs := jobs st;
     loading := loading st; showAddModal := showAddModal st; newJob := newJob st;
     authListener := authListener st; subscription := subscription st |}.

Definition set_jobs (l : list (gmap string value)) (st : State) : State :=
  {| db := db st; auth := auth st; userId := userId st; jobs := l;
     loading := loading st; showAddModal := showAddModal st; newJob := newJob st;
     authListener := authListener st; subscription := subscription st |}.

Definition set_showAddModal (b : bool) (st : State) : State :=
  {| db := db st; auth := auth st; userId := userId st; jobs := jobs st;
     loading := loading st; showAddModal := b; newJob := newJob st;
     authListener := authListener st; subscription := subscription st |}.

Definition set_newJob (j : NewJob) (st : State) : State :=
  {| db := db st; auth := auth st; userId := userId st; jobs := jobs st;
     loading := loading st; showAddModal := showAddModal st; newJob := j;
     authListener := authListener st; subscription := subscription st |}.

Definition set_subscription (p : option string) (st : State) : State :=
  {| db := db st; auth := auth st; userId := userId st; jobs := jobs st;
     loading := loading st; showAddModal := showAddModal st; newJob := newJob st;
     authListener := authListener st; subscription := p |}.

(** The [useState] initial values, at clock reading [now]. *)
Definition initial_state (now : Z) : State :=
  {| db := None; auth := None; userId := None; jobs := [];
     loading := true; showAddModal := false; newJob := blank_job now;
     authListener := false; subscription := None |}.

(** The guard [!db || !userId] of the effects and handlers: the user
    identifier when both cells are truthy. *)
Definition ready (st : State) : option string :=
  match db st, userId st with
  | Some _, Some u => if truthy_str u then Some u else None
  | _, _ => None
  end.

(** What the user of the page, the identity provider and the store can
    make happen.  [AuthStateChanged user uuid] is the identity listener's
    callback, [uuid] being what [crypto.randomUUID()] returns; [resolved]
    tells whether the promise of the store call resolves; [AddJob],
    [DeleteJob] and [UpdateStatus] invoke the handlers, [SubmitForm] is
    the submit button of the form. *)
Inductive event : Type :=
| AuthStateChanged (user : option string) (uuid : string)
| SignInFailed
| Snapshot (docs : list Doc)
| SnapshotError
| EditField (f : Field) (v : string)
| SetShowAddModal (b : bool)
| SubmitForm (now later : Z) (resolved : bool)
| AddJob (now later : Z) (resolved : bool)
| DeleteJob (id : string) (confirmed resolved : bool)
| UpdateStatus (jobId : string) (newStatus : value) (resolved : bool).


Section App.

(** The parts of [Date.parse] the engine decides: the strings that are no
    date-only instance of the date-time string format. *)
Variable other_formats : string -> number.

(** The browser's check of an [<input type="url">] value. *)
Variable valid_url : string -> bool.

(** The Canvas globals [__app_id], [__firebase_config] (parsed) and
    [__initial_auth_token]; [None] where the global is undefined. *)
Variable global_app_id : option string.
Variable firebaseConfig : option Config.
Variable initialAuthToken : option string.

Definition appId : string := default "default-job-tracker-app" global_app_id.

Definition Date_parse (s : string) : number :=
  match parse_iso_date s with
  | Some t => Num t
  | None => other_formats s
  end.

(** The time value of [new Date(v)].  A timestamp never reaches it: the
    snapshot listener has turned it into a string. *)
Definition new_Date (v : value) : number :=
  match v with
  | VStr s => Date_parse s
  | VUndefined => NaN
  | VNull => Num 0
  | VBool b => Num (if b then 1 else 0)
  | VNum NaN => NaN
  | VNum (Num z) => TimeClip z
  | VTimestamp _ _ => NaN
  end.

(** The time value the comparator reads off a record. *)
Definition date_key (r : gmap string value) : number :=
  new_Date (get_field r "appliedDate").

(** [(a, b) => new Date(b.appliedDate) - new Date(a.appliedDate)] *)
Definition by_date_desc (a b : gmap string value) : number :=
  number_sub (date_key b) (date_key a).

(** The snapshot listener's list: the documents mirrored, then sorted. *)
Definition jobList (docs : list Doc) : list (gmap string value) :=
  Array_sort by_date_desc (List.map mirror_doc docs).

(** The records whose date has time value [k] (NaN: does not parse). *)
Definition has_key (k : number) (r : gmap string value) : bool :=
  bool_decide (date_key r = k).

(** The time value of a record whose date parses. *)
Definition time_of (r : gmap string value) : Z :=
  match date_key r with
  | Num t => t
  | NaN => 0
  end.

Definition collectionPath (uid : string) : string :=
  "artifacts/" ++ appId ++ "/users/" ++ uid ++ "/jobApplications".

(** *** 1. Initialisation and identity *)

Definition init_effect (st : State) : State * list effect :=
  match firebaseConfig with
  | None => (set_loading false st, [ConsoleError "Firebase config is missing."])
  | Some cfg =>
      ({| db := Some cfg; auth := Some cfg; userId := userId st; jobs := jobs st;
          loading := loading st; showAddModal := showAddModal st; newJob := newJob st;
          authListener := true; subscription := subscription st |},
       [SetLogLevel "Debug"; InitializeApp cfg;
        match initialAuthToken with
        | Some tok => if truthy_str tok then SignInWithCustomToken tok else SignInAnonymously
        | None => SignInAnonymously
        end;
        OnAuthStateChanged])
  end.

(** The identity listener: the user's [uid], or a random UUID. *)
Definition on_auth_state_changed (user : option string) (uuid : string) (st : State) : State :=
  match user with
  | Some uid => set_userId uid st
  | None => set_userId uuid st
  end.

(** *** 2. The subscription effect, with dependencies [[db, userId]]

    When a transition has changed [db] or [userId], the previous run is
    cleaned up and the effect runs again. *)
Definition subscription_effect (old : State) (st : State) : State * list effect :=
  if decide (db old = db st /\ userId old = userId st) then (st, [])
  else
    let cleanup := match subscription old with
                   | Some p => [Unsubscribe p]
                   | None => []
                   end in
    match ready st with
    | Some u => (set_subscription (Some (collectionPath u)) st,
                 (cleanup ++ [OnSnapshot (collectionPath u)])%list)
    | None => (set_subscription None st, cleanup)
    end.

Definition on_snapshot (docs : list Doc) (st : State) : State :=
  set_loading false (set_jobs (jobList docs) st).

(** *** CRUD operations *)

Definition handleAddJob (st : State) (now later : Z) (resolved : bool)
  : State * list effect :=
  match ready st with
  | None => (st, [PreventDefault; ConsoleError "Database or User ID not ready."])
  | Some uid =>
    match Timestamp_fromDate (new_Date (VStr (appliedDate (newJob st)))),
          Timestamp_now now with
    | Some applied, Some created =>
        let jobToAdd :=
          {| add_company := company (newJob st); add_title := title (newJob st);
             add_status := status (newJob st); add_appliedDate := applied;
             add_notes := notes (newJob st); add_postingLink := postingLink (newJob st);
             add_documentsUsed := documentsUsed (newJob st); add_createdAt := created |} in
        let call := AddDoc (collectionPath uid) jobToAdd in
        if resolved
        then (set_showAddModal false (set_newJob (blank_job later) st),
              [PreventDefault; call])
        else (st, [PreventDefault; call; ConsoleError "Error adding job:"])
    | _, _ => (st, [PreventDefault; Uncaught])
    end
  end.

Definition handleDeleteJob (st : State) (id : string) (confirmed resolved : bool)
  : State * list effect :=
  match ready st with
  | None => (st, [])
  | Some uid =>
    let ask := Confirm "Are you sure you want to delete this job application?" in
    if negb confirmed then (st, [ask])
    else
      let call := DeleteDoc (doc_path (collectionPath uid) id) in
      (st, ([ask; call] ++ if resolved then [] else [ConsoleError "Error deleting job:"])%list)
  end.

Definition handleUpdateStatus (st : State) (jobId : string) (newStatus : value)
  (resolved : bool) : State * list effect :=
  match ready st with
  | None => (st, [])
  | Some uid =>
    if negb (truthy newStatus) then (st, [])
    else
      let call := UpdateDoc (doc_path (collectionPath uid) jobId)
                            {["status" := newStatus]} in
      (st, ([call] ++ if resolved then [] else [ConsoleError "Error updating status:"])%list)
  end.

(** *** The form

    The company, title and date inputs are [required], the link is an
    input of type [url]; the browser submits the form, and so calls
    [handleAddJob], only when every input is valid.  The form is on the
    page only while the modal is shown and the loading screen is not. *)
Definition form_valid (j : NewJob) : bool :=
  truthy_str (company j) && truthy_str (title j)
  && truthy_str (date_input_value (appliedDate j))
  && (String.eqb (postingLink j) "" || valid_url (postingLink j)).

Definition submit_form (st : State) (now later : Z) (resolved : bool)
  : State * list effect :=
  if showAddModal st && negb (loading st) && form_valid (newJob st)
  then handleAddJob st now later resolved
  else (st, []).

(** *** The state machine *)

Definition handle (st : State) (e : event) : State * list effect :=
  match e with
  | AuthStateChanged user uuid =>
      if authListener st then (on_auth_state_changed user uuid st, []) else (st, [])
  | SignInFailed =>
      if authListener st then (st, [ConsoleError "Firebase Auth failed:"]) else (st, [])
  | Snapshot docs =>
      match subscription st with
      | Some _ => (on_snapshot docs st, [])
      | None => (st, [])
      end
  | SnapshotError =>
      match subscription st with
      | Some _ => (set_loading false st, [ConsoleError "Firestore snapshot error:"])
      | None => (st, [])
      end
  | EditField f v => (set_newJob (set_field f v (newJob st)) st, [])
  | SetShowAddModal b => (set_showAddModal b st, [])
  | SubmitForm now later resolved => submit_form st now later resolved
  | AddJob now later resolved => handleAddJob st now later resolved
  | DeleteJob id confirmed resolved => handleDeleteJob st id confirmed resolved
  | UpdateStatus jobId newStatus resolved => handleUpdateStatus st jobId newStatus resolved
  end.

(** One event: the handler runs, then the subscription effect. *)
Definition step (st : State) (e : event) : State * list effect :=
  let '(st1, fx1) := handle st e in
  let '(st2, fx2) := subscription_effect st st1 in
  (st2, (fx1 ++ fx2)%list).

Fixpoint run (st : State) (es : list event) : State * list effect :=
  match es with
  | [] => (st, [])
  | e :: es' =>
      let '(st1, fx1) := step st e in
      let '(st2, fx2) := run st1 es' in
      (st2, (fx1 ++ fx2)%list)
  end.

(** Mounting the component at clock reading [now]: both effects run. *)
Definition mount (now : Z) : State * list effect :=
  let '(st1, fx1) := init_effect (initial_state now) in
  let '(st2, fx2) := subscription_effect (initial_state now) st1 in
  (st2, (fx1 ++ fx2)%list).

(** The component's whole life: mounted, then the events in turn. *)
Definition session (now : Z) (es : list event) : State * list effect :=
  let '(st0, fx0) := mount now in
  let '(st, fx) := run st0 es in
  (st, (fx0 ++ fx)%list).

Definition data_ops (fx : list effect) : list effect := List.filter is_data_op fx.

(** The effects that tell of a failure: an error logged, an exception
    that escaped the handler. *)
Definition is_failure (e : effect) : bool :=
  match e with
  | ConsoleError _ | Uncaught => true
  | _ => false
  end.

(** What a handler does when the store handle or the identity is
    missing: at most the log line of [handleAddJob]. *)
Definition idle_effect (e : effect) : bool :=
  match e with
  | PreventDefault => true
  | ConsoleError msg => String.eqb msg "Database or User ID not ready."
  | _ => false
  end.

(** The store handle was never made: no handle, no identity listener, no
    subscription. *)
Definition no_handle (st : State) : Prop :=
  db st = None /\ authListener st = false /\ subscription st = None.


(** The events that choose a status in the form. *)
Definition chooses_status (e : event) : bool :=
  match e with
  | EditField FStatus _ => true
  | _ => false
  end.

(** The values the status [<select>] of a card or of the form can pass:
    one [<option>] per entry of [STATUS_OPTIONS]. *)
Definition select_values : list string := List.map opt_value STATUS_OPTIONS.

(** ** The Document Store

    Modelled from the spec: the Document Store is an external service;
    a collection maps document ids to field mappings, and
    [update(documentPath, partialFields)] on an existing document
    overwrites the given fields and keeps the others; on a missing
    document it fails and changes nothing. *)
Definition store_update (id : string) (fields : gmap string value)
  (coll : gmap string (gmap string value)) : gmap string (gmap string value) :=
  match coll !! id with
  | Some d => <[id := fields ∪ d]> coll
  | None => coll
  end.

(** ** Sample data *)

Definition doc_jan : Doc :=
  {| doc_id := "a";
     doc_data := {["company" := VStr "Acme"; "appliedDate" := VStr "2024-01-10"]} |}.

(** A document without [appliedDate]. *)
Definition doc_undated : Doc :=
  {| doc_id := "b"; doc_data := {["company" := VStr "Globex"]} |}.

(** 2024-03-05T13:11:11.123Z as a stored timestamp. *)
Definition doc_mar : Doc :=
  {| doc_id := "c";
     doc_data := {["company" := VStr "Initech";
                   "appliedDate" := VTimestamp 1709644271 123000000]} |}.

(** A document with a stored field named [id]. *)
Definition doc_shadow : Doc :=
  {| doc_id := "d"; doc_data := {["id" := VStr "mine"; "company" := VStr "Hooli"]} |}.

(** A state with the store handle and the identity resolved, the form
    filled in by the given record. *)
Definition ready_state (j : NewJob) : State :=
  {| db := Some "{}"; auth := Some "{}"; userId := Some "u1"; jobs := [];
     loading := false; showAddModal := true; newJob := j;
     authListener := true; subscription := None |}.

(** The same form with the company left empty. *)
Definition nameless_job : NewJob :=
  {| company := ""; title := "Engineer"; status := "Applied";
     appliedDate := "2024-05-01"; notes := ""; postingLink := ""; documentsUsed := "" |}.

(** A collection holding one document, ["x"]. *)
Definition one_doc_store : gmap string (gmap string value) :=
  {["x" := {["company" := VStr "Acme"; "status" := VStr "Applied"]}]}.

(** An engine that parses nothing but the date-only forms, and a browser
    that accepts every link. *)
Definition iso_only (s : string) : number := NaN.
Definition any_url (s : string) : bool := true.

Definition acme_job : NewJob :=
  {| company := "Acme"; title := "Engineer"; status := "Applied";
     appliedDate := "2024-05-01"; notes := ""; postingLink := ""; documentsUsed := "" |}.

(** ** Proof steps *)

(** Case analysis on the conditions a handler tests. *)
Ltac step_cases :=
  repeat match goal with
    | |- context [if ?b then _ else _] => destruct b eqn:?; cbn
    end.

(** A property of each effect of an explicit list. *)
Ltac all_effects := repeat constructor.

(** ** The card of a record and the page *)

(** [Date.prototype.toLocaleDateString], which the locale of the browser
    decides. *)
Variable toLocaleDateString : number -> string.

(** [job.appliedDate && job.appliedDate !== 'Invalid Date'
      ? new Date(job.appliedDate).toLocaleDateString() : 'N/A'] *)
Definition dateDisplay (job : gmap string value) : string :=
  let v := get_field job "appliedDate" in
  if truthy v && negb (strict_eq_str "Invalid Date" v)
  then toLocaleDateString (new_Date v)
  else "N/A".

(** [link.startsWith('http') ? link : `https://${link}`] *)
Definition posting_href (link : string) : string :=
  if String.prefix "http" link then link else "https://" ++ link.

(** The footer of a card: the link when [job.postingLink] is truthy, the
    text "No link provided" otherwise.  A truthy value that is no string
    has no [startsWith]: rendering throws a TypeError. *)
Inductive link_view : Type :=
| NoLink
| Link (href : string)
| LinkTypeError.

Definition card_link (job : gmap string value) : link_view :=
  match get_field job "postingLink" with
  | VStr s => if truthy_str s then Link (posting_href s) else NoLink
  | v => if truthy v then LinkTypeError else NoLink
  end.

(** What [JobCard] computes from a record. *)
Record Card : Type := {
  card_key : value;
  card_statusColorClass : string;
  card_dateDisplay : string;
  card_link_view : link_view
}.

Definition JobCard (job : gmap string value) : Card :=
  {| card_key := get_field job "id";
     card_statusColorClass := getStatusColor (get_field job "status");
     card_dateDisplay := dateDisplay job;
     card_link_view := card_link job |}.

(** The values that are objects. *)
Definition is_object (v : value) : bool :=
  match v with
  | VTimestamp _ _ => true
  | _ => false
  end.

(** The records whose card throws while it renders: an object as the
    child [{job.company}], [{job.title}], [{job.documentsUsed}] or
    [{job.notes}] (the last two are rendered when truthy, as an object
    is), and a posting link without [startsWith]. *)
Definition card_throws (job : gmap string value) : bool :=
  is_object (get_field job "company")
  || is_object (get_field job "title")
  || is_object (get_field job "documentsUsed")
  || is_object (get_field job "notes")
  || match card_link job with
     | LinkTypeError => true
     | _ => false
     end.

(** What [App] shows: the loading screen, or the page with the count of
    the header, the cards (none: the "No applications yet!" box) and the
    modal when [showAddModal] is set.  No error boundary is around the
    cards: when one of them throws, the render of [App] throws and no
    page is shown. *)
Inductive view : Type :=
| LoadingScreen
| Page (tracked : nat) (cards : list Card) (modal : bool)
| RenderThrows.

Definition render (st : State) : view :=
  if loading st then LoadingScreen
  else if existsb card_throws (jobs st) then RenderThrows
  else Page (List.length (jobs st)) (List.map JobCard (jobs st)) (showAddModal st).

(** The effects that open and that close a subscription, and the sign-in
    calls. *)
Definition is_open (e : effect) : bool :=
  match e with
  | OnSnapshot _ => true
  | _ => false
  end.

Definition is_close (e : effect) : bool :=
  match e with
  | Unsubscribe _ => true
  | _ => false
  end.

Definition is_sign_in (e : effect) : bool :=
  match e with
  | SignInWithCustomToken _ | SignInAnonymously => true
  | _ => false
  end.

(** The path a data operation is on. *)
Definition effect_path (e : effect) : option string :=
  match e with
  | OnSnapshot p | AddDoc p _ | UpdateDoc p _ | DeleteDoc p => Some p
  | _ => None
  end.

(** The events the store delivers on the subscription. *)
Definition is_snapshot_event (e : event) : bool :=
  match e with
  | Snapshot _ | SnapshotError => true
  | _ => false
  end.

(** The number of subscriptions a state holds open. *)
Definition live (st : State) : nat :=
  match subscription st with
  | Some _ => 1
  | None => 0
  end.

Definition opened (fx : list effect) : nat := List.length (List.filter is_open fx).
Definition closed (fx : list effect) : nat := List.length (List.filter is_close fx).

(** The sign-in call of the initialisation. *)
Definition sign_in_call : effect :=
  match initialAuthToken with
  | Some tok => if truthy_str tok then SignInWithCustomToken tok else SignInAnonymously
  | None => SignInAnonymously
  end.

(** ** Dates as strings *)

(** The value of a decimal digit. *)
Definition digit_value (c : ascii) : Z := Z.of_nat (nat_of_ascii c - 48).

(** The string [YYYY-MM-DD] of a date of the years 0 to 9999. *)
Definition date_string (y m d : Z) : string :=
  fixed_width 4 y ++ "-" ++ fixed_width 2 m ++ "-" ++ fixed_width 2 d.

(** The time values a [Timestamp] can hold: from 0001-01-01T00:00:00Z to
    the end of 9999-12-31. *)
Definition timestamp_range (t : Z) : Prop :=
  -62135596800000 <= t < 253402300800000.

(** A document whose [appliedDate] is a stored timestamp, as every
    record written by [handleAddJob] has it. *)
Definition has_timestamp (d : Doc) : Prop :=
  exists secs nanos,
    doc_data d !! "appliedDate" = Some (VTimestamp secs nanos)
    /\ MIN_SECONDS <= secs < 253402300800 /\ 0 <= nanos < 1000000000.

(** A document whose [appliedDate], when it is a stored timestamp, is one
    of whole milliseconds, as [Timestamp.fromDate] and [Timestamp.now]
    make them. *)
Definition whole_milliseconds (d : Doc) : Prop :=
  forall secs nanos,
    doc_data d !! "appliedDate" = Some (VTimestamp secs nanos) ->
    nanos mod 1000000 = 0.

(** A second application on 2024-03-05, at 20:20:00Z, and one on
    2023-12-24. *)
Definition doc_mar_evening : Doc :=
  {| doc_id := "e";
     doc_data := {["company" := VStr "Umbrella";
                   "appliedDate" := VTimestamp 1709670000 0]} |}.

Definition doc_dec : Doc :=
  {| doc_id := "f";
     doc_data := {["company" := VStr "Soylent";
                   "appliedDate" := VTimestamp 1703376000 0]} |}.

(** A document whose stored posting link is a number. *)
Definition doc_number_link : Doc :=
  {| doc_id := "h";
     doc_data := {["company" := VStr "Hooli"; "appliedDate" := VStr "2024-02-01";
                   "postingLink" := VNum (Num 7)]} |}.

(** A record with a posting link without a scheme, and one whose stored
    link is a number. *)
Definition job_bare_link : gmap string value :=
  {["id" := VStr "g"; "postingLink" := VStr "example.com/job"]}.

Definition job_number_link : gmap string value :=
  {["id" := VStr "h"; "postingLink" := VNum (Num 7)]}.

(** A state with the subscription of user ["u1"] open. *)
Definition subscribed_state : State :=
  {| db := Some "{}"; auth := Some "{}"; userId := Some "u1"; jobs := [];
     loading := true; showAddModal := false; newJob := acme_job;
     authListener := true;
     subscription := Some "artifacts/default-job-tracker-app/users/u1/jobApplications" |}.

(** * Properties *)

(** ** The status display helper *)

Lemma is_status_cases (v : value) :
  is_status v = true ->
  v = VStr "Applied" \/ v = VStr "Interviewing" \/ v = VStr "Offer"
  \/ v = VStr "Rejected" \/ v = VStr "Wishlist".
Proof.
  destruct v as [| |b|n|s|s n]; try discriminate.
  unfold is_status; cbn [existsb STATUS_OPTIONS strict_eq_str opt_value].
  rewrite !orb_true_iff, !String.eqb_eq.
  intros H; decompose [or] H; subst; auto 6; discriminate.
Qed.

Lemma getStatusColor_unrecognized (v : value) :
  is_status v = false -> getStatusColor v = default_color.
Proof.
  unfold is_status, getStatusColor.
  cbn [existsb List.find STATUS_OPTIONS opt_value].
  rewrite !orb_false_iff. intros (-> & -> & -> & -> & -> & _). reflexivity.
Qed.

(** C5: [getStatusColor] is a total function of its argument alone; for
    every value (strings inside and outside the enumeration, [null],
    [undefined], anything else) it returns one of the six styles, and for
    every value outside the enumeration it returns the neutral grey
    style. *)
Theorem getStatusColor_total (v : value) :
  In (getStatusColor v) valid_styles
  /\ (is_status v = false -> getStatusColor v = default_color).
Proof.
  split; [| apply getStatusColor_unrecognized].
  destruct (is_status v) eqn:E.
  - apply is_status_cases in E.
    decompose [or] E; subst; cbv [valid_styles]; cbn; auto 10.
  - rewrite (getStatusColor_unrecognized v E). cbn; auto 10.
Qed.

(** ** The mirrored record *)

Lemma mirror_doc_lookup_id (d : Doc) :
  mirror_doc d !! "id" = Some (default (VStr (doc_id d)) (doc_data d !! "id")).
Proof.
  unfold mirror_doc.
  rewrite lookup_insert_ne by discriminate.
  rewrite lookup_union.
  destruct (doc_data d !! "id") as [v|] eqn:E; rewrite lookup_singleton_eq; reflexivity.
Qed.

(** C10: the mirrored record's [id] is the document id when the stored
    fields have no key [id]; a stored field [id], being spread after the
    document id, takes its place. *)
Theorem mirror_doc_id (d : Doc) :
  (doc_data d !! "id" = None -> get_field (mirror_doc d) "id" = VStr (doc_id d))
  /\ (forall v, doc_data d !! "id" = Some v -> get_field (mirror_doc d) "id" = v).
Proof.
  unfold get_field. rewrite mirror_doc_lookup_id.
  split; [intros -> | intros v ->]; reflexivity.
Qed.

Lemma mirror_doc_appliedDate (d : Doc) :
  get_field (mirror_doc d) "appliedDate"
  = convert_appliedDate (get_field (doc_data d) "appliedDate").
Proof. unfold get_field at 1, mirror_doc. rewrite lookup_insert_eq. reflexivity. Qed.

(** The other stored fields are mirrored as they are. *)
Lemma mirror_doc_other (d : Doc) (k : string) :
  k <> "id" -> k <> "appliedDate" ->
  mirror_doc d !! k = doc_data d !! k.
Proof.
  intros Hid Hdate. unfold mirror_doc.
  rewrite lookup_insert_ne by congruence.
  rewrite lookup_union, lookup_singleton_ne by congruence.
  destruct (doc_data d !! k); reflexivity.
Qed.

(** No timestamp is left in the field the comparator reads. *)
Lemma mirror_doc_no_timestamp (d : Doc) (s n : Z) :
  get_field (mirror_doc d) "appliedDate" <> VTimestamp s n.
Proof.
  rewrite mirror_doc_appliedDate.
  destruct (get_field (doc_data d) "appliedDate"); discriminate.
Qed.

(** ** The sort *)

Section Sort.
Context {A : Type} (comparefn : A -> A -> number).

Lemma sort_insert_perm (x : A) (l : list A) :
  Permutation (sort_insert comparefn x l) (x :: l).
Proof.
  induction l as [|y l IH]; cbn [sort_insert]; [reflexivity|].
  destruct (SortCompare comparefn x y >? 0); [|reflexivity].
  rewrite IH. apply perm_swap.
Qed.

Lemma Array_sort_perm (l : list A) : Permutation (Array_sort comparefn l) l.
Proof.
  induction l as [|x l IH]; cbn [Array_sort]; [reflexivity|].
  rewrite sort_insert_perm. constructor. exact IH.
Qed.

(** The insertion keeps the order of a class of elements no two of which
  the comparator orders. *)
Section Stable.
Variable P : A -> bool.
Hypothesis P_tied :
  forall x y, P x = true -> P y = true -> SortCompare comparefn x y <= 0.

Lemma sort_insert_filter (x : A) (l : list A) :
  List.filter P (sort_insert comparefn x l) = List.filter P (x :: l).
Proof.
  induction l as [|y l IH]; cbn [sort_insert]; [reflexivity|].
  destruct (SortCompare comparefn x y >? 0) eqn:E; [|reflexivity].
  cbn [List.filter] in *. rewrite IH.
  destruct (P x) eqn:Px, (P y) eqn:Py; try reflexivity.
  specialize (P_tied x y Px Py). lia.
Qed.

Lemma Array_sort_filter (l : list A) :
  List.filter P (Array_sort comparefn l) = List.filter P l.
Proof.
  induction l as [|x l IH]; cbn [Array_sort]; [reflexivity|].
  rewrite sort_insert_filter. cbn [List.filter]. rewrite IH. reflexivity.
Qed.
End Stable.

(** Order: on elements the comparator ranks by a key, the result is
  sorted by that key, largest first. *)
Section Keyed.
Variable key : A -> Z.
Variable ok : A -> Prop.
Hypothesis compare_key :
  forall x y, ok x -> ok y -> SortCompare comparefn x y = key y - key x.

Lemma sort_insert_sorted (x : A) (l : list A) :
  Forall ok (x :: l) -> StronglySorted (fun a b => key b <= key a) l ->
  StronglySorted (fun a b => key b <= key a) (sort_insert comparefn x l).
Proof.
  induction l as [|y l IH]; intros Hok Hs; cbn [sort_insert].
  - repeat constructor.
  - inversion Hok as [|? ? Hx Hyl]; subst.
    inversion Hyl as [|? ? Hy Hl]; subst.
    inversion Hs as [|? ? Hsl Hyall]; subst.
    pose proof (compare_key x y Hx Hy) as Hc.
    destruct (SortCompare comparefn x y >? 0) eqn:E.
    + constructor; [apply IH; [constructor|]; assumption|].
      rewrite sort_insert_perm. constructor; [lia | assumption].
    + constructor; [assumption|].
      constructor; [lia|].
      eapply Forall_impl; [exact Hyall|]. intros; cbn in *; lia.
Qed.

Lemma Array_sort_sorted (l : list A) :
  Forall ok l -> StronglySorted (fun a b => key b <= key a) (Array_sort comparefn l).
Proof.
  induction l as [|x l IH]; intros Hok; cbn [Array_sort]; [constructor|].
  inversion Hok; subst.
  apply sort_insert_sorted; [|auto].
  constructor; [assumption|]. rewrite Array_sort_perm. assumption.
Qed.
End Keyed.
End Sort.

(** Two lists sorted by a key, largest first, with the same elements of
    each key in the same order, are the same list. *)
Lemma sorted_stable_unique {A : Type} (key : A -> Z) (l1 l2 : list A) :
  StronglySorted (fun a b => key b <= key a) l1 ->
  StronglySorted (fun a b => key b <= key a) l2 ->
  (forall k, List.filter (fun x => key x =? k) l1
             = List.filter (fun x => key x =? k) l2) ->
  l1 = l2.
Proof.
  revert l2. induction l1 as [|x l1 IH]; intros l2 H1 H2 Hf.
  - destruct l2 as [|y l2]; [reflexivity|].
    specialize (Hf (key y)). cbn [List.filter] in Hf.
    rewrite Z.eqb_refl in Hf. discriminate Hf.
  - destruct l2 as [|y l2].
    { specialize (Hf (key x)). cbn [List.filter] in Hf.
      rewrite Z.eqb_refl in Hf. discriminate Hf. }
    inversion H1 as [|? ? H1s H1a]; subst.
    inversion H2 as [|? ? H2s H2a]; subst.
    assert (Hk : key x = key y).
    { destruct (Z.eq_dec (key x) (key y)) as [E|E]; [exact E|].
      assert (Hx : In x l2).
      { pose proof (Hf (key x)) as H. cbn [List.filter] in H.
        rewrite Z.eqb_refl in H.
        destruct (key y =? key x) eqn:Eyx; [apply Z.eqb_eq in Eyx; lia|].
        assert (Hin : In x (List.filter (fun z => key z =? key x) l2))
          by (rewrite <- H; left; reflexivity).
        apply List.filter_In in Hin. tauto. }
      assert (Hy : In y l1).
      { pose proof (Hf (key y)) as H. cbn [List.filter] in H.
        rewrite Z.eqb_refl in H.
        destruct (key x =? key y) eqn:Exy; [apply Z.eqb_eq in Exy; lia|].
        assert (Hin : In y (List.filter (fun z => key z =? key y) l1))
          by (rewrite H; left; reflexivity).
        apply List.filter_In in Hin. tauto. }
      rewrite List.Forall_forall in H1a, H2a.
      specialize (H1a y Hy). specialize (H2a x Hx). cbn in *. lia. }
    assert (Hxy : x = y).
    { specialize (Hf (key x)). cbn [List.filter] in Hf.
      rewrite <- Hk, Z.eqb_refl in Hf. congruence. }
    subst y. f_equal. apply IH; [assumption | assumption|].
    intros k. specialize (Hf k). cbn [List.filter] in Hf.
    destruct (key x =? k); congruence.
Qed.

(** ** The mirrored list *)

Lemma by_date_desc_tied (k : number) (a b : gmap string value) :
  has_key k a = true -> has_key k b = true -> SortCompare by_date_desc a b <= 0.
Proof.
  unfold has_key. rewrite !bool_decide_eq_true. intros Ha Hb.
  unfold SortCompare, by_date_desc. rewrite Ha, Hb.
  destruct k; cbn; lia.
Qed.

(** For every snapshot the list holds the snapshot's documents, each
    once. *)
Lemma jobList_perm (docs : list Doc) :
  Permutation (jobList docs) (List.map mirror_doc docs).
Proof. apply Array_sort_perm. Qed.


(** When every date of the snapshot parses, the list is sorted by date,
    most recent first. *)
Lemma jobList_sorted (docs : list Doc) :
  Forall (fun d => date_key (mirror_doc d) <> NaN) docs ->
  StronglySorted (fun a b => time_of b <= time_of a) (jobList docs).
Proof.
  intros Hok. unfold jobList.
  apply (Array_sort_sorted by_date_desc time_of (fun r => date_key r <> NaN)).
  - intros x y Hx Hy. unfold SortCompare, by_date_desc, time_of.
    destruct (date_key x), (date_key y); cbn; congruence.
  - apply Forall_map. exact Hok.
Qed.

(** When every date of the snapshot parses the comparator is consistent,
    and the list is the one every sort gives that returns the records
    sorted by date, most recent first, those of one date in the order of
    the snapshot. *)
Lemma jobList_unique (docs : list Doc) (out : list (gmap string value)) :
  Forall (fun d => date_key (mirror_doc d) <> NaN) docs ->
  StronglySorted (fun a b => time_of b <= time_of a) out ->
  (forall t, List.filter (fun r => time_of r =? t) out
             = List.filter (fun r => time_of r =? t) (List.map mirror_doc docs)) ->
  out = jobList docs.
Proof.
  intros Hok Hs Hf.
  apply (sorted_stable_unique time_of); [exact Hs | apply jobList_sorted, Hok|].
  intros t. rewrite Hf. symmetry. unfold jobList.
  apply Array_sort_filter. intros x y Hx Hy.
  apply Z.eqb_eq in Hx, Hy. unfold time_of in Hx, Hy.
  unfold SortCompare, by_date_desc.
  destruct (date_key x), (date_key y); cbn; lia.
Qed.

(** The spec's scenario: dates 2024-01-10 and 2024-03-05 come out most
    recent first. *)
Example jobList_two_dates :
  jobList [doc_jan; doc_mar] = [mirror_doc doc_mar; mirror_doc doc_jan].
Proof. vm_compute. reflexivity. Qed.

(** Against a record whose date does not parse the comparator yields NaN,
    a tie for the sort, whichever the other record: on such a snapshot
    its ties are not transitive, and it is no consistent comparator. *)
Lemma by_date_desc_ties_not_transitive :
  SortCompare by_date_desc (mirror_doc doc_jan) (mirror_doc doc_undated) = 0
  /\ SortCompare by_date_desc (mirror_doc doc_undated) (mirror_doc doc_mar) = 0
  /\ SortCompare by_date_desc (mirror_doc doc_jan) (mirror_doc doc_mar) > 0.
Proof. repeat split; vm_compute; reflexivity. Qed.

(** C1, at a snapshot with an undated document between two dated ones:
    the comparator yields NaN against the undated record, the sort takes
    that for a tie, and the list stays in snapshot order, the January
    application ahead of the March one. *)
Theorem jobList_unparsable_between :
  jobList [doc_jan; doc_undated; doc_mar]
  = [mirror_doc doc_jan; mirror_doc doc_undated; mirror_doc doc_mar]
  /\ date_key (mirror_doc doc_jan) = Num 1704844800000
  /\ date_key (mirror_doc doc_undated) = NaN
  /\ date_key (mirror_doc doc_mar) = Num 1709596800000.
Proof. repeat split; vm_compute; reflexivity. Qed.

(** ** The guard of the handlers *)

Lemma ready_None (st : State) :
  db st = None \/ userId st = None \/ userId st = Some "" -> ready st = None.
Proof.
  unfold ready. intros [H | [H | H]]; rewrite H; [reflexivity | |];
    destruct (db st); reflexivity.
Qed.

Lemma ready_Some (st : State) (uid : string) :
  ready st = Some uid <-> (exists cfg, db st = Some cfg) /\ userId st = Some uid /\ uid <> "".
Proof.
  unfold ready, truthy_str. split.
  - destruct (db st) as [cfg|]; [|discriminate].
    destruct (userId st) as [u|]; [|discriminate].
    destruct (String.eqb_spec u ""); cbn; [discriminate|].
    intros [= ->]. eauto.
  - intros ([cfg ->] & -> & Hne).
    destruct (String.eqb_spec uid ""); [contradiction | reflexivity].
Qed.

(** ** Delete *)

(** C4: [handleDeleteJob] issues a store call only after an affirmative
    confirmation; without the store handle or the user identity, or when
    the confirmation is declined, it issues none, and the one call it
    issues is the deletion of the document [id] of the user's
    collection. *)
Theorem handleDeleteJob_confirmation (st : State) (id : string) (confirmed resolved : bool) :
  (db st = None \/ userId st = None \/ confirmed = false ->
   data_ops (handleDeleteJob st id confirmed resolved).2 = [])
  /\ (forall e, In e (handleDeleteJob st id confirmed resolved).2 ->
      is_data_op e = true ->
      confirmed = true
      /\ exists uid, ready st = Some uid /\ e = DeleteDoc (doc_path (collectionPath uid) id)).
Proof.
  unfold handleDeleteJob. split.
  - intros H.
    destruct (ready st) as [uid|] eqn:R; [|reflexivity].
    apply ready_Some in R as ([cfg Hdb] & Hu & _).
    destruct H as [H | [H | ->]]; [congruence | congruence | reflexivity].
  - intros e.
    destruct (ready st) as [uid|]; [|intros []].
    destruct confirmed; cbn [negb]; destruct resolved; cbn;
      intros H; decompose [or] H; subst; try discriminate; try contradiction;
      intros _; eauto.
Qed.

(** ** Update of the status *)

Lemma select_values_are_statuses (s : string) :
  In s select_values -> is_status (VStr s) = true.
Proof.
  cbv [select_values STATUS_OPTIONS List.map opt_value].
  intros H; cbn in H; decompose [or] H; subst; try reflexivity; contradiction.
Qed.

(** C3, as the code has it: [handleUpdateStatus] guards on the store
    handle, the user identity and the truthiness of [newStatus] only.  A
    falsy [newStatus] (the empty string, [undefined], [null]) is a silent
    no-op: no store call and nothing logged.  Any truthy [newStatus],
    inside the enumeration or not, is written when the handle and the
    identity are there.  The select of a job card, the handler's only
    caller, passes members of the enumeration only. *)
Theorem handleUpdateStatus_guard (st : State) (jobId : string) (newStatus : value)
  (resolved : bool) :
  (truthy newStatus = false ->
   handleUpdateStatus st jobId newStatus resolved = (st, []))
  /\ (forall uid, ready st = Some uid -> truthy newStatus = true ->
      data_ops (handleUpdateStatus st jobId newStatus resolved).2
      = [UpdateDoc (doc_path (collectionPath uid) jobId) {["status" := newStatus]}])
  /\ (forall s, In s select_values -> is_status (VStr s) = true).
Proof.
  unfold handleUpdateStatus. repeat split.
  - intros ->. destruct (ready st); reflexivity.
  - intros uid -> ->. destruct resolved; reflexivity.
  - apply select_values_are_statuses.
Qed.

(** C9: every store call of [handleUpdateStatus] is an update of the
    document [.../jobApplications/{jobId}] with the field mapping
    [{status: newStatus}] and nothing else; applied to the store, it sets
    [status] and leaves every other field of the document, and every
    other document, as it was. *)
Theorem handleUpdateStatus_partial (st : State) (jobId : string) (newStatus : value)
  (resolved : bool) :
  (forall e, In e (handleUpdateStatus st jobId newStatus resolved).2 ->
     is_data_op e = true ->
     exists uid, userId st = Some uid
       /\ e = UpdateDoc (("artifacts/" ++ appId ++ "/users/" ++ uid ++ "/jobApplications")
                          ++ "/" ++ jobId)
                        {["status" := newStatus]})
  /\ (forall (coll : gmap string (gmap string value)) (d : gmap string value),
       coll !! jobId = Some d ->
       exists d', store_update jobId {["status" := newStatus]} coll !! jobId = Some d'
         /\ d' !! "status" = Some newStatus
         /\ (forall k, k <> "status" -> d' !! k = d !! k))
  /\ (forall (coll : gmap string (gmap string value)) (id' : string),
       id' <> jobId ->
       store_update jobId {["status" := newStatus]} coll !! id' = coll !! id').
Proof.
  repeat split.
  - unfold handleUpdateStatus. intros e.
    destruct (ready st) as [uid|] eqn:R; [|intros []].
    apply ready_Some in R as (_ & Hu & _).
    destruct (truthy newStatus); cbn [negb]; [|intros []].
    destruct resolved; cbn; intros H; decompose [or] H; subst;
      try discriminate; try contradiction; intros _; exists uid; split;
      solve [assumption | reflexivity].
  - intros coll d Hd. unfold store_update. rewrite Hd.
    exists ({["status" := newStatus]} ∪ d). rewrite lookup_insert_eq.
    split; [reflexivity|]. split.
    + rewrite lookup_union, lookup_singleton_eq. destruct (d !! "status"); reflexivity.
    + intros k Hk. rewrite lookup_union, lookup_singleton_ne by congruence.
      destruct (d !! k); reflexivity.
  - intros coll id' Hne. unfold store_update.
    destruct (coll !! jobId); [|reflexivity].
    rewrite lookup_insert_ne by congruence. reflexivity.
Qed.

(** ** Runs of the state machine *)

Lemma data_ops_nil (fx : list effect) :
  Forall (fun e => is_data_op e = false) fx -> data_ops fx = [].
Proof.
  induction 1 as [|e fx He _ IH]; [reflexivity|].
  unfold data_ops in *. cbn [List.filter]. rewrite He. exact IH.
Qed.

(** An invariant of the steps is an invariant of the runs, and what
    holds of the effects of each step holds of the effects of the run. *)
Lemma run_invariant (Inv : State -> Prop) (Ev : event -> Prop) (Fx : effect -> Prop) :
  (forall st e, Inv st -> Ev e -> Inv (step st e).1 /\ Forall Fx (step st e).2) ->
  forall es st, Inv st -> Forall Ev es ->
  Inv (run st es).1 /\ Forall Fx (run st es).2.
Proof.
  intros Hstep. induction es as [|e es IH]; intros st HI HE; cbn [run].
  - split; [assumption | constructor].
  - inversion HE as [|? ? He Hes]; subst.
    destruct (Hstep st e HI He) as [HI1 HF1].
    destruct (step st e) as [st1 fx1]. cbn [fst snd] in *.
    destruct (IH st1 HI1 Hes) as [HI2 HF2].
    destruct (run st1 es) as [st2 fx2]. cbn [fst snd] in *.
    split; [assumption | apply Forall_app; split; assumption].
Qed.

(** The subscription effect changes the [subscription] cell only. *)
Lemma subscription_effect_cells (old st : State) :
  let st' := (subscription_effect old st).1 in
  db st' = db st /\ userId st' = userId st /\ authListener st' = authListener st
  /\ newJob st' = newJob st /\ jobs st' = jobs st.
Proof.
  unfold subscription_effect.
  destruct (decide _); [cbn; auto 6|].
  destruct (ready st); cbn; auto 6.
Qed.

(** With nothing to subscribe with and nothing to clean up, it does
    nothing. *)
Lemma subscription_effect_idle (old st : State) :
  ready st = None -> subscription old = None -> subscription st = None ->
  subscription (subscription_effect old st).1 = None
  /\ (subscription_effect old st).2 = [].
Proof.
  intros R Hold Hst. unfold subscription_effect.
  destruct (decide _); [cbn; auto|].
  rewrite R, Hold. cbn. auto.
Qed.

(** *** Without a store handle *)

Lemma handle_no_handle (st : State) (e : event) :
  no_handle st ->
  no_handle (handle st e).1 /\ Forall (fun x => idle_effect x = true) (handle st e).2.
Proof.
  destruct st as [d a u j l m nj al sub]. unfold no_handle. cbn.
  intros (-> & -> & ->).
  destruct e; unfold handle, submit_form, handleAddJob, handleDeleteJob,
    handleUpdateStatus, ready; cbn; step_cases; cbn; (split; [auto | all_effects]).
Qed.

Lemma step_no_handle (st : State) (e : event) :
  no_handle st ->
  no_handle (step st e).1 /\ Forall (fun x => idle_effect x = true) (step st e).2.
Proof.
  intros Hst. pose proof Hst as (_ & _ & Hsub).
  destruct (handle_no_handle st e Hst) as [(Hdb & Hal & Hs) Hfx].
  unfold step. destruct (handle st e) as [st1 fx1]. cbn [fst snd] in *.
  assert (R : ready st1 = None) by (apply ready_None; auto).
  destruct (subscription_effect_idle st st1 R Hsub Hs) as [Hs2 Hfx2].
  destruct (subscription_effect_cells st st1) as (Hd & _ & Ha & _).
  destruct (subscription_effect st st1) as [st2 fx2]. cbn [fst snd] in *. subst fx2.
  rewrite app_nil_r. unfold no_handle. repeat split; congruence.
Qed.

Lemma idle_effect_no_data_op (e : effect) :
  idle_effect e = true -> is_data_op e = false.
Proof. destruct e; cbn; congruence. Qed.

Lemma idle_effect_not_config_error (e : effect) :
  idle_effect e = true -> e <> ConsoleError "Firebase config is missing.".
Proof. intros H ->. discriminate. Qed.

Lemma mount_no_config (now : Z) :
  firebaseConfig = None ->
  mount now = (set_loading false (initial_state now),
               [ConsoleError "Firebase config is missing."]).
Proof.
  intros Hcfg. unfold mount, init_effect. rewrite Hcfg.
  unfold subscription_effect.
  destruct (decide _) as [_|Hne]; [reflexivity|].
  exfalso. apply Hne. split; reflexivity.
Qed.

(** C6: without a configuration, mounting reports the configuration
    error, and whatever happens afterwards the report is not repeated,
    the store handle is never made and no data operation is issued: no
    subscription is opened, nothing is added, updated or deleted. *)
Theorem no_config_no_data_operation (now : Z) (es : list event) :
  firebaseConfig = None ->
  exists rest,
    (session now es).2 = ConsoleError "Firebase config is missing." :: rest
    /\ ~ In (ConsoleError "Firebase config is missing.") rest
    /\ data_ops (session now es).2 = []
    /\ db (session now es).1 = None.
Proof.
  intros Hcfg. unfold session. rewrite (mount_no_config now Hcfg).
  assert (H0 : no_handle (set_loading false (initial_state now)))
    by (repeat split).
  destruct (run_invariant no_handle (fun _ => True) (fun x => idle_effect x = true)
              (fun st e Hi _ => step_no_handle st e Hi) es _ H0) as [(Hdb & _) Hfx].
  { apply Forall_forall. auto. }
  destruct (run _ es) as [st fx]. cbn [fst snd app] in *.
  exists fx. repeat split; [| |assumption].
  - intros Hin. rewrite List.Forall_forall in Hfx. specialize (Hfx _ Hin). discriminate.
  - unfold data_ops. cbn [List.filter is_data_op is_write].
    apply data_ops_nil. eapply Forall_impl; [exact Hfx|]. apply idle_effect_no_data_op.
Qed.

(** *** Before the identity listener fires *)





(** ** Add *)

Lemma form_valid_required (j : NewJob) :
  company j = "" \/ title j = "" \/ valid_date_string (appliedDate j) = false ->
  form_valid j = false.
Proof.
  unfold form_valid, date_input_value.
  intros [-> | [-> | ->]]; cbn;
    rewrite ?andb_false_r; reflexivity.
Qed.

Lemma ready_None_iff (st : State) :
  ready st = None <-> db st = None \/ userId st = None \/ userId st = Some "".
Proof.
  split; [|apply ready_None].
  unfold ready, truthy_str.
  destruct (db st); [|auto]. destruct (userId st) as [u|]; [|auto].
  destruct (String.eqb_spec u ""); [subst; auto | discriminate].
Qed.

(** C2, as the code has it: the empty company, the empty title and the
    date that is no calendar date are stopped by the form, whose inputs
    are [required]: submitting it then does not call [handleAddJob] and
    issues nothing.  [handleAddJob] itself looks at neither company nor
    title.  It issues no store call exactly when the store handle or the
    user identity is missing (the identifier [null] or empty) or the
    making of one of the two timestamps throws; in every other case it
    issues the add, with the company and the title of the form whatever
    they are. *)
Theorem submit_form_required (st : State) (now later : Z) (resolved : bool) :
  (company (newJob st) = "" \/ title (newJob st) = ""
   \/ valid_date_string (appliedDate (newJob st)) = false ->
   submit_form st now later resolved = (st, []))
  /\ (data_ops (handleAddJob st now later resolved).2 = []
      <-> db st = None \/ userId st = None \/ userId st = Some ""
          \/ Timestamp_fromDate (Date_parse (appliedDate (newJob st))) = None
          \/ Timestamp_now now = None)
  /\ (forall uid applied created,
       ready st = Some uid ->
       Timestamp_fromDate (Date_parse (appliedDate (newJob st))) = Some applied ->
       Timestamp_now now = Some created ->
       data_ops (handleAddJob st now later resolved).2
       = [AddDoc (collectionPath uid)
            {| add_company := company (newJob st); add_title := title (newJob st);
               add_status := status (newJob st); add_appliedDate := applied;
               add_notes := notes (newJob st);
               add_postingLink := postingLink (newJob st);
               add_documentsUsed := documentsUsed (newJob st);
               add_createdAt := created |}]).
Proof.
  split; [|split].
  - intros H. unfold submit_form. rewrite (form_valid_required _ H).
    rewrite andb_false_r. reflexivity.
  - unfold handleAddJob. cbn [new_Date].
    destruct (ready st) as [uid|] eqn:R.
    + assert (Hr : ~ (db st = None \/ userId st = None \/ userId st = Some ""))
        by (rewrite <- ready_None_iff, R; discriminate).
      destruct (Timestamp_fromDate _) as [applied|];
        [|split; [auto 6 | reflexivity]].
      destruct (Timestamp_now now) as [created|];
        [|split; [auto 6 | reflexivity]].
      destruct resolved; (split; [discriminate|]);
        intros [H | [H | [H | [H | H]]]]; try discriminate H; exfalso; auto.
    + split; [|reflexivity]. intros _. apply ready_None_iff in R.
      destruct R as [H | [H | H]]; auto.
  - intros uid applied created R Ha Hc. unfold handleAddJob. cbn [new_Date].
    rewrite R, Ha, Hc. destruct resolved; reflexivity.
Qed.

(** The status of the form is ["Applied"] until an event chooses
    another. *)
Lemma step_status_applied (st : State) (e : event) :
  status (newJob st) = "Applied" -> chooses_status e = false ->
  status (newJob (step st e).1) = "Applied" /\ Forall (fun _ => True) (step st e).2.
Proof.
  intros Hst He. split; [|apply Forall_forall; auto].
  unfold step.
  assert (H1 : status (newJob (handle st e).1) = "Applied").
  { destruct st as [d a u j l m nj al sub]. cbn in Hst.
    destruct e as [| | | |f v| | | | |]; try (destruct f; try discriminate He);
      unfold handle, submit_form, handleAddJob, handleDeleteJob, handleUpdateStatus,
        on_auth_state_changed; cbn;
      repeat match goal with
        | |- context [match ?x with _ => _ end] => destruct x; cbn
        end; auto. }
  destruct (handle st e) as [st1 fx1]. cbn [fst] in H1.
  destruct (subscription_effect_cells st st1) as (_ & _ & _ & Hnj & _).
  destruct (subscription_effect st st1) as [st2 fx2]. cbn [fst] in *. congruence.
Qed.

(** C8: with the store handle and the identity resolved, an Add that
    reports no failure has issued exactly one store call, [addDoc] on
    [artifacts/{appId}/users/{userId}/jobApplications]; the record
    carries the form's fields, its [createdAt] is the timestamp of the
    clock at the call, and its [status] is the form's, which is
    ["Applied"] in every session in which no other status was chosen. *)
Theorem handleAddJob_one_add :
  (forall st now later resolved uid,
     ready st = Some uid ->
     existsb is_failure (handleAddJob st now later resolved).2 = false ->
     exists applied created,
       Timestamp_fromDate (Date_parse (appliedDate (newJob st))) = Some applied
       /\ Timestamp_now now = Some created
       /\ data_ops (handleAddJob st now later resolved).2
          = [AddDoc ("artifacts/" ++ appId ++ "/users/" ++ uid ++ "/jobApplications")
               {| add_company := company (newJob st); add_title := title (newJob st);
                  add_status := status (newJob st); add_appliedDate := applied;
                  add_notes := notes (newJob st);
                  add_postingLink := postingLink (newJob st);
                  add_documentsUsed := documentsUsed (newJob st);
                  add_createdAt := created |}])
  /\ (forall now es,
       Forall (fun e => chooses_status e = false) es ->
       status (newJob (session now es).1) = "Applied").
Proof.
  split.
  - intros st now later resolved uid R. unfold handleAddJob. rewrite R. cbn [new_Date].
    destruct (Timestamp_fromDate _) as [applied|]; [|discriminate].
    destruct (Timestamp_now now) as [created|]; [|discriminate].
    destruct resolved; [|discriminate].
    intros _. exists applied, created. repeat split.
  - intros now es Hes. unfold session.
    assert (H0 : status (newJob (mount now).1) = "Applied").
    { unfold mount, init_effect.
      destruct firebaseConfig;
        match goal with
        | |- context [subscription_effect ?o ?s] =>
            destruct (subscription_effect_cells o s) as (_ & _ & _ & Hnj & _);
            destruct (subscription_effect o s)
        end; cbn [fst] in *; rewrite Hnj; reflexivity. }
    destruct (mount now) as [st0 fx0]. cbn [fst] in H0.
    destruct (run_invariant (fun st => status (newJob st) = "Applied") _ _
                step_status_applied es st0 H0 Hes) as [H _].
    destruct (run st0 es). exact H.
Qed.

(** * Further properties of the component *)

(** ** What the handlers leave alone *)

Lemma handle_cells (st : State) (e : event) :
  db (handle st e).1 = db st
  /\ subscription (handle st e).1 = subscription st
  /\ authListener (handle st e).1 = authListener st.
Proof.
  destruct st as [d a u j l m nj al sub].
  destruct e; unfold handle, submit_form, handleAddJob, handleDeleteJob,
    handleUpdateStatus, on_auth_state_changed; cbn;
    repeat match goal with
      | |- context [match ?x with _ => _ end] => destruct x; cbn
      end; auto.
Qed.

(** X7: The list changes by a snapshot delivered on the open subscription,
    and by nothing else: no handler touches it, whether its store call
    resolves or not. *)
Theorem jobs_after_step (st : State) (e : event) :
  jobs (step st e).1
  = match e, subscription st with
    | Snapshot docs, Some _ => jobList docs
    | _, _ => jobs st
    end.
Proof.
  unfold step.
  assert (H : jobs (handle st e).1
              = match e, subscription st with
                | Snapshot docs, Some _ => jobList docs
                | _, _ => jobs st
                end).
  { destruct st as [d a u j l m nj al sub].
    destruct e; unfold handle, submit_form, handleAddJob, handleDeleteJob,
      handleUpdateStatus, on_auth_state_changed; cbn;
      repeat match goal with
        | |- context [match ?x with _ => _ end] => destruct x; cbn
        end; auto. }
  destruct (handle st e) as [st1 fx1]. cbn [fst] in H.
  destruct (subscription_effect_cells st st1) as (_ & _ & _ & _ & Hj).
  destruct (subscription_effect st st1) as [st2 fx2]. cbn [fst] in *. congruence.
Qed.

(** ** The subscription follows the identity *)





(** ** Subscriptions are opened and closed in pairs *)

(** A handler opens and closes no subscription and signs nobody in. *)
Lemma handle_effects (st : State) (e : event) :
  Forall (fun x => is_open x || is_close x || is_sign_in x = false) (handle st e).2.
Proof.
  destruct st as [d a u j l m nj al sub].
  destruct e; unfold handle, submit_form, handleAddJob, handleDeleteJob,
    handleUpdateStatus; cbn;
    repeat match goal with
      | |- context [match ?x with _ => _ end] => destruct x; cbn
      end; all_effects.
Qed.

Lemma opened_app (fx1 fx2 : list effect) :
  opened (fx1 ++ fx2) = (opened fx1 + opened fx2)%nat.
Proof. unfold opened. rewrite List.filter_app, List.length_app. reflexivity. Qed.

Lemma closed_app (fx1 fx2 : list effect) :
  closed (fx1 ++ fx2) = (closed fx1 + closed fx2)%nat.
Proof. unfold closed. rewrite List.filter_app, List.length_app. reflexivity. Qed.

Lemma quiet_counts (fx : list effect) :
  Forall (fun x => is_open x || is_close x || is_sign_in x = false) fx ->
  opened fx = 0%nat /\ closed fx = 0%nat /\ List.filter is_sign_in fx = [].
Proof.
  unfold opened, closed.
  induction 1 as [|x fx Hx _ (IHo & IHc & IHs)]; [auto|].
  apply orb_false_iff in Hx as [Hx Hs]. apply orb_false_iff in Hx as [Ho Hc].
  cbn [List.filter]. rewrite Ho, Hc, Hs. auto.
Qed.

Lemma subscription_effect_balance (old st : State) :
  subscription st = subscription old ->
  (opened (subscription_effect old st).2 + live old
   = closed (subscription_effect old st).2 + live (subscription_effect old st).1)%nat
  /\ List.filter is_sign_in (subscription_effect old st).2 = [].
Proof.
  intros Hsub. unfold subscription_effect, live.
  destruct (decide _); cbn [fst snd].
  - rewrite Hsub. split; reflexivity.
  - destruct (ready st), (subscription old); cbn; split; reflexivity.
Qed.

Lemma step_balance (st : State) (e : event) :
  (opened (step st e).2 + live st = closed (step st e).2 + live (step st e).1)%nat
  /\ List.filter is_sign_in (step st e).2 = [].
Proof.
  unfold step.
  destruct (handle_cells st e) as (_ & Hs & _).
  destruct (quiet_counts _ (handle_effects st e)) as (Ho & Hc & Hsi).
  destruct (handle st e) as [st1 fx1]. cbn [fst snd] in *.
  destruct (subscription_effect_balance st st1 Hs) as [Hb Hsi2].
  destruct (subscription_effect st st1) as [st2 fx2]. cbn [fst snd] in *.
  rewrite opened_app, closed_app, List.filter_app, Ho, Hc, Hsi, Hsi2.
  split; [exact Hb | reflexivity].
Qed.

Lemma run_balance (es : list event) (st : State) :
  (opened (run st es).2 + live st = closed (run st es).2 + live (run st es).1)%nat
  /\ List.filter is_sign_in (run st es).2 = [].
Proof.
  revert st. induction es as [|e es IH]; intros st; cbn [run].
  - split; reflexivity.
  - destruct (step_balance st e) as [H1 S1].
    destruct (step st e) as [st1 fx1]. cbn [fst snd] in *.
    destruct (IH st1) as [H2 S2].
    destruct (run st1 es) as [st2 fx2]. cbn [fst snd] in *.
    rewrite opened_app, closed_app, List.filter_app, S1, S2.
    split; [lia | reflexivity].
Qed.

Lemma is_sign_in_sign_in_call : is_sign_in sign_in_call = true.
Proof.
  unfold sign_in_call.
  destruct initialAuthToken as [tok|]; [destruct (truthy_str tok)|]; reflexivity.
Qed.

Lemma sign_in_call_not_subscription :
  is_open sign_in_call = false /\ is_close sign_in_call = false.
Proof.
  unfold sign_in_call.
  destruct initialAuthToken as [tok|]; [destruct (truthy_str tok)|]; split; reflexivity.
Qed.

Lemma mount_effects (now : Z) :
  (mount now).2
  = match firebaseConfig with
    | Some cfg => [SetLogLevel "Debug"; InitializeApp cfg; sign_in_call; OnAuthStateChanged]
    | None => [ConsoleError "Firebase config is missing."]
    end
  /\ subscription (mount now).1 = None.
Proof.
  unfold mount, init_effect, subscription_effect, sign_in_call.
  destruct firebaseConfig as [cfg|]; cbn; destruct (decide _); cbn; split; reflexivity.
Qed.

Lemma mount_balance (now : Z) :
  opened (mount now).2 = 0%nat /\ closed (mount now).2 = 0%nat
  /\ live (mount now).1 = 0%nat
  /\ List.filter is_sign_in (mount now).2
     = match firebaseConfig with Some _ => [sign_in_call] | None => [] end.
Proof.
  destruct (mount_effects now) as [Hfx Hsub].
  unfold live, opened, closed. rewrite Hsub, Hfx.
  pose proof is_sign_in_sign_in_call as Hs.
  destruct sign_in_call_not_subscription as [Ho Hc].
  destruct firebaseConfig; cbn [List.filter is_open is_close is_sign_in];
    rewrite ?Hs, ?Ho, ?Hc; repeat split; reflexivity.
Qed.

(** X9: Over every session, each subscription opened has been closed again,
    but for the one that is open at the end: nothing is left listening
    on the collection of an earlier identity. *)
Theorem subscriptions_balanced (now : Z) (es : list event) :
  opened (session now es).2
  = (closed (session now es).2 + live (session now es).1)%nat.
Proof.
  unfold session.
  destruct (mount_balance now) as (Ho & Hc & Hl & _).
  destruct (mount now) as [st0 fx0]. cbn [fst snd] in *.
  destruct (run_balance es st0) as [H _].
  destruct (run st0 es) as [st fx]. cbn [fst snd] in *.
  rewrite opened_app, closed_app. lia.
Qed.

(** X10: Sign-in is attempted once, when the component mounts with a
    configuration, with the custom token when one is supplied and not
    empty and anonymously otherwise; nothing that happens later attempts
    it again, not even its failure. *)
Theorem sign_in_once (now : Z) (es : list event) :
  List.filter is_sign_in (session now es).2
  = match firebaseConfig with
    | Some _ =>
        [match initialAuthToken with
         | Some tok => if truthy_str tok then SignInWithCustomToken tok
                       else SignInAnonymously
         | None => SignInAnonymously
         end]
    | None => []
    end.
Proof.
  unfold session.
  destruct (mount_balance now) as (_ & _ & _ & Hs).
  destruct (mount now) as [st0 fx0]. cbn [fst snd] in *.
  destruct (run_balance es st0) as [_ Hr].
  destruct (run st0 es) as [st fx]. cbn [fst snd] in *.
  rewrite List.filter_app, Hs, Hr, app_nil_r. reflexivity.
Qed.

(** ** The loading screen *)

Lemma handle_loading (st : State) (e : event) :
  is_snapshot_event e = false -> loading (handle st e).1 = loading st.
Proof.
  destruct st as [d a u j l m nj al sub].
  destruct e; try discriminate; intros _;
    unfold handle, submit_form, handleAddJob, handleDeleteJob,
      handleUpdateStatus, on_auth_state_changed; cbn;
    repeat match goal with
      | |- context [match ?x with _ => _ end] => destruct x; cbn
      end; auto.
Qed.

Lemma subscription_effect_loading (old st : State) :
  loading (subscription_effect old st).1 = loading st
  /\ showAddModal (subscription_effect old st).1 = showAddModal st.
Proof.
  unfold subscription_effect.
  destruct (decide _); [split; reflexivity|].
  destruct (ready st); split; reflexivity.
Qed.

Lemma step_loading (st : State) (e : event) :
  loading st = true -> is_snapshot_event e = false ->
  loading (step st e).1 = true /\ Forall (fun _ => True) (step st e).2.
Proof.
  intros Hl He. split; [|apply List.Forall_forall; auto].
  unfold step. pose proof (handle_loading st e He) as H1.
  destruct (handle st e) as [st1 fx1]. cbn [fst] in H1.
  destruct (subscription_effect_loading st st1) as [H2 _].
  destruct (subscription_effect st st1) as [st2 fx2]. cbn [fst] in *. congruence.
Qed.

(** X11: With a configuration, the page shows the loading screen until the
    subscription delivers a snapshot or an error: a failed sign-in,
    identity events and calls of the handlers do not take it away. *)
Theorem loading_until_snapshot (now : Z) (es : list event) (cfg : Config) :
  firebaseConfig = Some cfg ->
  Forall (fun e => is_snapshot_event e = false) es ->
  render (session now es).1 = LoadingScreen.
Proof.
  intros Hcfg Hes. unfold session.
  assert (H0 : loading (mount now).1 = true).
  { unfold mount, init_effect. rewrite Hcfg.
    match goal with
    | |- context [subscription_effect ?o ?s] =>
        destruct (subscription_effect_loading o s) as [Hl _];
        destruct (subscription_effect o s)
    end. cbn [fst] in *. rewrite Hl. reflexivity. }
  destruct (mount now) as [st0 fx0]. cbn [fst] in H0.
  destruct (run_invariant (fun st => loading st = true) _ _
              step_loading es st0 H0 Hes) as [H _].
  destruct (run st0 es) as [st fx]. cbn [fst] in *.
  unfold render. rewrite H. reflexivity.
Qed.

Lemma existsb_perm {A : Type} (f : A -> bool) (l l' : list A) :
  Permutation l l' -> existsb f l = existsb f l'.
Proof.
  induction 1 as [|x l l' _ IH|x y l|l l' l'' _ IH1 _ IH2]; cbn [existsb].
  - reflexivity.
  - rewrite IH. reflexivity.
  - destruct (f x), (f y); reflexivity.
  - congruence.
Qed.

(** X12: A snapshot delivered on the open subscription takes the loading
    screen away.  When no record of it makes its card throw, the page
    shows one card for each document of the snapshot, the header
    counting as many; when one does (a stored posting link that is
    truthy and no string, an object for a text), the render throws and
    no page is shown. *)
Theorem render_after_snapshot (st : State) (docs : list Doc) (p : string) :
  subscription st = Some p ->
  render (step st (Snapshot docs)).1
  = if existsb card_throws (List.map mirror_doc docs) then RenderThrows
    else Page (List.length docs) (List.map JobCard (jobList docs)) (showAddModal st).
Proof.
  intros Hsub. unfold step.
  assert (H1 : (handle st (Snapshot docs)).1 = on_snapshot docs st)
    by (cbn; rewrite Hsub; reflexivity).
  destruct (handle st (Snapshot docs)) as [st1 fx1]. cbn [fst] in H1. subst st1.
  destruct (subscription_effect_loading st (on_snapshot docs st)) as [Hl Hm].
  destruct (subscription_effect_cells st (on_snapshot docs st)) as (_ & _ & _ & _ & Hj).
  destruct (subscription_effect st (on_snapshot docs st)) as [st2 fx2]. cbn [fst] in *.
  unfold render. rewrite Hl, Hj, Hm. cbn.
  rewrite (existsb_perm card_throws _ _ (jobList_perm docs)).
  rewrite (Permutation_length (jobList_perm docs)), List.length_map. reflexivity.
Qed.

(** ** Paths *)

Lemma string_app_length (s t : string) :
  String.length (s ++ t) = (String.length s + String.length t)%nat.
Proof.
  induction s as [|c s IH]; [reflexivity|].
  change (S (String.length (s ++ t)) = S (String.length s + String.length t)).
  f_equal. exact IH.
Qed.

Lemma string_app_cancel_l (p s t : string) : p ++ s = p ++ t -> s = t.
Proof.
  induction p as [|c p IH]; [auto|].
  change (String c (p ++ s) = String c (p ++ t) -> s = t). intros [= H]. auto.
Qed.

Lemma string_app_cancel_r (s t p : string) : s ++ p = t ++ p -> s = t.
Proof.
  revert t. induction s as [|c s IH]; intros [|c' t] H.
  - reflexivity.
  - apply (f_equal String.length) in H. rewrite !string_app_length in H. cbn in H. lia.
  - apply (f_equal String.length) in H. rewrite !string_app_length in H. cbn in H. lia.
  - change (String c (s ++ p) = String c' (t ++ p)) in H.
    injection H as -> H. f_equal. auto.
Qed.

Lemma prefix_app (s t : string) : String.prefix s (s ++ t) = true.
Proof.
  induction s as [|c s IH]; [destruct t; reflexivity|].
  change (String.prefix (String c s) (String c (s ++ t)) = true).
  cbn [String.prefix]. destruct (ascii_dec c c); [exact IH | contradiction].
Qed.

(** X13: Two different user identifiers have different collection paths,
    under every application identifier: the path keeps the records of
    the users apart. *)
Theorem collectionPath_injective (uid1 uid2 : string) :
  uid1 <> uid2 -> collectionPath uid1 <> collectionPath uid2.
Proof.
  intros Hne H. apply Hne. unfold collectionPath in H.
  repeat apply string_app_cancel_l in H.
  apply string_app_cancel_r in H. exact H.
Qed.

Lemma subscription_effect_no_write (old st : State) :
  Forall (fun x => is_write x = false) (subscription_effect old st).2.
Proof.
  unfold subscription_effect.
  destruct (decide _); [constructor|].
  destruct (ready st), (subscription old); cbn; all_effects.
Qed.

Lemma handle_writes (st : State) (e : event) (x : effect) :
  In x (handle st e).2 -> is_write x = true ->
  exists uid, ready st = Some uid
    /\ (effect_path x = Some (collectionPath uid)
        \/ exists id, effect_path x = Some (doc_path (collectionPath uid) id)).
Proof.
  destruct (ready st) as [uid|] eqn:R.
  - intros Hin Hw. exists uid. split; [reflexivity|]. revert Hin.
    destruct e; unfold handle, submit_form, handleAddJob, handleDeleteJob,
      handleUpdateStatus; rewrite ?R;
      repeat match goal with
        | |- context [match ?y with _ => _ end] => destruct y; cbn
        | |- context [if ?y then _ else _] => destruct y; cbn
        end;
      cbn; intros H; decompose [or] H; subst; try discriminate; try contradiction;
      cbn; eauto.
  - intros Hin Hw. exfalso. revert Hin.
    destruct e; unfold handle, submit_form, handleAddJob, handleDeleteJob,
      handleUpdateStatus; rewrite ?R;
      repeat match goal with
        | |- context [match ?y with _ => _ end] => destruct y; cbn
        | |- context [if ?y then _ else _] => destruct y; cbn
        end;
      cbn; intros H; decompose [or] H; subst; try discriminate; try contradiction.
Qed.

(** X14: Every write a step issues, whatever the event, is on the collection
    of the user identifier current at that step: the add on the
    collection itself, an update or a deletion on a document path of
    it. *)
Theorem writes_on_own_collection (st : State) (e : event) (x : effect) :
  In x (step st e).2 -> is_write x = true ->
  exists uid, ready st = Some uid
    /\ (effect_path x = Some (collectionPath uid)
        \/ exists id, effect_path x = Some (doc_path (collectionPath uid) id)).
Proof.
  unfold step. intros Hin Hw.
  apply (handle_writes st e x); [|exact Hw].
  pose proof (subscription_effect_no_write st (handle st e).1) as Hno.
  destruct (handle st e) as [st1 fx1]. cbn [fst snd] in *.
  destruct (subscription_effect st st1) as [st2 fx2]. cbn [fst snd] in *.
  apply in_app_or in Hin as [Hin|Hin]; [exact Hin|].
  rewrite List.Forall_forall in Hno. rewrite (Hno x Hin) in Hw. discriminate.
Qed.

(** ** The card *)

Lemma posting_href_prefix (link : string) :
  String.prefix "http" (posting_href link) = true.
Proof.
  unfold posting_href.
  destruct (String.prefix "http" link) eqn:E; [exact E|].
  change ("https://" ++ link)
    with (String "h" (String "t" (String "t" (String "p"
           (String "s" (String ":" (String "/" (String "/" link)))))))).
  reflexivity.
Qed.

(** X15: The address of the posting link always begins with [http], and
    computing it from its own result changes nothing. *)
Theorem posting_href_http (link : string) :
  String.prefix "http" (posting_href link) = true
  /\ posting_href (posting_href link) = posting_href link.
Proof.
  split; [apply posting_href_prefix|].
  unfold posting_href at 1. rewrite posting_href_prefix. reflexivity.
Qed.

(** X16: The footer of a card: a link that is shown begins with [http]; the
    card fails to render exactly when the stored [postingLink] is truthy
    and no string; a string never makes it fail. *)
Theorem card_link_cases (job : gmap string value) :
  (forall href, card_link job = Link href -> String.prefix "http" href = true)
  /\ (card_link job = LinkTypeError
      <-> truthy (get_field job "postingLink") = true
          /\ forall s, get_field job "postingLink" <> VStr s).
Proof.
  unfold card_link. split.
  - intros href.
    destruct (get_field job "postingLink") as [| |b|n|s|s n];
      cbn; try (destruct b); try (destruct n as [|z]; [|destruct (z =? 0)]);
      try discriminate.
    destruct (truthy_str s); [|discriminate].
    intros [= <-]. apply posting_href_prefix.
  - destruct (get_field job "postingLink") as [| |b|n|s|s n]; cbn;
      try destruct b; try (destruct n as [|z]; [|destruct (z =? 0)]);
      try (unfold truthy_str; destruct (negb (String.eqb s "")));
      cbn.
    all: split.
    all: try (intros H; discriminate H).
    all: try (intros _; split; [reflexivity | discriminate]).
    all: try (intros [H1 _]; discriminate H1).
    all: try (intros _; reflexivity).
    all: intros [_ H2]; exfalso; eapply H2; reflexivity.
Qed.

(** ** After an Add *)

Lemma form_valid_blank (now : Z) : form_valid (blank_job now) = false.
Proof. reflexivity. Qed.

(** X17: Once an Add has written its record the form is blank again: pressing
    the submit button once more, the modal reopened or not, writes
    nothing until company and title are typed in anew. *)
Theorem no_resubmit_after_add (st : State) (now later now' later' : Z)
  (resolved' modal : bool) :
  existsb is_write (handleAddJob st now later true).2 = true ->
  submit_form (set_showAddModal modal (handleAddJob st now later true).1)
    now' later' resolved'
  = (set_showAddModal modal (handleAddJob st now later true).1, []).
Proof.
  unfold handleAddJob.
  destruct (ready st) as [uid|]; [|discriminate].
  destruct (Timestamp_fromDate _) as [applied|]; [|discriminate].
  destruct (Timestamp_now now) as [created|]; [|discriminate].
  intros _. cbn [fst]. unfold submit_form.
  change (newJob (set_showAddModal modal
            (set_showAddModal false (set_newJob (blank_job later) st))))
    with (blank_job later).
  rewrite form_valid_blank, andb_false_r. reflexivity.
Qed.

(** ** The calendar *)


Lemma is_leap_spec y :
  is_leap y = true <-> (y mod 4 = 0 /\ (y mod 100 <> 0 \/ y mod 400 = 0)).
Proof.
  unfold is_leap.
  rewrite orb_true_iff, andb_true_iff, negb_true_iff, !Z.eqb_eq, Z.eqb_neq.
  split; [intros [[H1 H2]|H]; [auto|] | intros [H1 [H2|H2]]; auto].
  split; [|auto]. Z.div_mod_to_equations; lia.
Qed.

Lemma era_day doe :
  0 <= doe < 146097 ->
  let yoe := (doe - doe / 1460 + doe / 36524 - doe / 146096) / 365 in
  let doy := doe - (365 * yoe + yoe / 4 - yoe / 100) in
  let mp := (5 * doy + 2) / 153 in
  let d := doy - (153 * mp + 2) / 5 + 1 in
  0 <= yoe <= 399 /\ 0 <= doy <= 365 /\ 0 <= mp <= 11 /\ 1 <= d <= 31
  /\ (mp = 1 \/ mp = 3 \/ mp = 6 \/ mp = 8 -> d <= 30)
  /\ (mp = 11 -> d <= 29)
  /\ (doy = 365 -> (yoe + 1) mod 4 = 0 /\ ((yoe + 1) mod 100 <> 0 \/ (yoe + 1) mod 400 = 0)).
Proof.
  intros H yoe doy mp d. subst yoe doy mp d.
  repeat split; Z.div_mod_to_equations; lia.
Qed.

Lemma days_of_civil_of_days (z : Z) :
  let '(y, m, d) := civil_from_days z in
  days_from_civil y m d = z /\ 1 <= m <= 12 /\ 1 <= d <= days_in_month y m.
Proof.
  unfold civil_from_days.
  set (era := (z + 719468) / 146097).
  set (doe := z + 719468 - era * 146097).
  assert (Hdoe : 0 <= doe < 146097) by (subst doe era; Z.div_mod_to_equations; lia).
  assert (Hz : z = era * 146097 + doe - 719468) by (subst doe; lia).
  pose proof (era_day doe Hdoe) as H. cbv zeta in H.
  set (yoe := (doe - doe / 1460 + doe / 36524 - doe / 146096) / 365) in *.
  set (doy := doe - (365 * yoe + yoe / 4 - yoe / 100)) in *.
  set (mp := (5 * doy + 2) / 153) in *.
  set (d := doy - (153 * mp + 2) / 5 + 1) in *.
  destruct H as (Hyoe & Hdoy & Hmp & Hd & H30 & H29 & Hleap).
  assert (Hdoe' : doe = yoe * 365 + yoe / 4 - yoe / 100 + doy) by (subst doy; lia).
  assert (Hdoy' : doy = (153 * mp + 2) / 5 + d - 1) by (subst d; lia).
  clearbody doe yoe doy mp d era.
  destruct (mp <? 10) eqn:E10; [apply Z.ltb_lt in E10 | apply Z.ltb_ge in E10].
  - (* March to December *)
    assert (Hm : (mp + 3 <=? 2) = false) by (apply Z.leb_gt; lia). rewrite Hm.
    cbv beta iota zeta.
    split; [|split; [lia|]].
    + unfold days_from_civil. rewrite Hm.
      assert (Hg : (mp + 3 >? 2) = true) by (apply Z.gtb_lt; lia). rewrite Hg.
      replace ((yoe + era * 400) / 400) with era by (Z.div_mod_to_equations; lia).
      replace (mp + 3 - 3) with mp by lia.
      replace (yoe + era * 400 - era * 400) with yoe by lia.
      lia.
    + split; [lia|]. unfold days_in_month.
      assert (Hc : mp = 0 \/ mp = 1 \/ mp = 2 \/ mp = 3 \/ mp = 4 \/ mp = 5 \/ mp = 6
                   \/ mp = 7 \/ mp = 8 \/ mp = 9) by lia.
      decompose [or] Hc; subst mp; cbv -[Z.le is_leap]; lia.
  - (* January and February *)
    assert (Hm : (mp - 9 <=? 2) = true) by (apply Z.leb_le; lia). rewrite Hm.
    cbv beta iota zeta.
    split; [|split; [lia|]].
    + unfold days_from_civil. rewrite Hm.
      assert (Hg : (mp - 9 >? 2) = false) by (rewrite Z.gtb_ltb; apply Z.ltb_ge; lia).
      rewrite Hg.
      replace (yoe + era * 400 + 1 - 1) with (yoe + era * 400) by lia.
      replace ((yoe + era * 400) / 400) with era by (Z.div_mod_to_equations; lia).
      replace (mp - 9 + 9) with mp by lia.
      replace (yoe + era * 400 - era * 400) with yoe by lia.
      lia.
    + split; [lia|]. unfold days_in_month.
      assert (Hc : mp = 10 \/ mp = 11) by lia.
      destruct Hc as [-> | ->];
        [replace (10 - 9) with 1 by lia | replace (11 - 9) with 2 by lia];
        cbv -[Z.le is_leap Z.add Z.mul]; [lia|].
      destruct (is_leap (yoe + era * 400 + 1)) eqn:L; [apply H29; reflexivity|].
      assert (doy <> 365); [|Z.div_mod_to_equations; lia].
      intros H365. apply Hleap in H365.
      assert (is_leap (yoe + era * 400 + 1) = true); [|congruence].
      apply is_leap_spec. Z.div_mod_to_equations; lia.
Qed.

Lemma era_date yoe mp d :
  0 <= yoe <= 399 -> 0 <= mp <= 11 -> 1 <= d <= 31 ->
  (mp = 1 \/ mp = 3 \/ mp = 6 \/ mp = 8 -> d <= 30) ->
  (mp = 11 -> d <= 29) ->
  (mp = 11 -> d = 29 ->
   (yoe + 1) mod 4 = 0 /\ ((yoe + 1) mod 100 <> 0 \/ (yoe + 1) mod 400 = 0)) ->
  let doy := (153 * mp + 2) / 5 + d - 1 in
  let doe := yoe * 365 + yoe / 4 - yoe / 100 + doy in
  0 <= doe < 146097
  /\ (doe - doe / 1460 + doe / 36524 - doe / 146096) / 365 = yoe
  /\ (5 * doy + 2) / 153 = mp.
Proof.
  intros Hyoe Hmp Hd H30 H29 Hleap doy doe. subst doy doe.
  repeat split; Z.div_mod_to_equations; lia.
Qed.

Lemma days_in_month_bounds y m d :
  1 <= m <= 12 -> 1 <= d <= days_in_month y m ->
  d <= 31
  /\ (m = 4 \/ m = 6 \/ m = 9 \/ m = 11 -> d <= 30)
  /\ (m = 2 -> d <= 29)
  /\ (m = 2 -> d = 29 -> is_leap y = true).
Proof.
  intros Hm Hd. unfold days_in_month in Hd.
  assert (Hc : m = 1 \/ m = 2 \/ m = 3 \/ m = 4 \/ m = 5 \/ m = 6 \/ m = 7 \/ m = 8
               \/ m = 9 \/ m = 10 \/ m = 11 \/ m = 12) by lia.
  decompose [or] Hc; subst m; cbv -[Z.le is_leap] in Hd;
    try (destruct (is_leap y)); repeat split; intros; lia.
Qed.

Lemma civil_of_days_of_civil (y m d : Z) :
  1 <= m <= 12 -> 1 <= d <= days_in_month y m ->
  civil_from_days (days_from_civil y m d) = (y, m, d).
Proof.
  intros Hm Hd.
  destruct (days_in_month_bounds y m d Hm Hd) as (H31 & H30 & H29 & Hleap).
  unfold days_from_civil.
  set (y' := if m <=? 2 then y - 1 else y).
  set (mp := if m >? 2 then m - 3 else m + 9).
  set (era := y' / 400).
  set (yoe := y' - era * 400).
  assert (Hyoe : 0 <= yoe <= 399) by (subst yoe era; Z.div_mod_to_equations; lia).
  assert (Hy' : y' = yoe + era * 400) by (subst yoe; lia).
  assert (Hmp : 0 <= mp <= 11 /\ m = (if mp <? 10 then mp + 3 else mp - 9)
                /\ (m <=? 2) = negb (mp <? 10)).
  { subst mp. destruct (Z.gtb_spec m 2).
    - assert (E : (m - 3 <? 10) = true) by (apply Z.ltb_lt; lia). rewrite E.
      assert (E2 : (m <=? 2) = false) by (apply Z.leb_gt; lia). rewrite E2.
      repeat split; lia.
    - assert (E : (m + 9 <? 10) = false) by (apply Z.ltb_ge; lia). rewrite E.
      assert (E2 : (m <=? 2) = true) by (apply Z.leb_le; lia). rewrite E2.
      repeat split; lia. }
  destruct Hmp as (Hmp & Hm' & Hle).
  assert (Hy : y = if m <=? 2 then yoe + era * 400 + 1 else yoe + era * 400).
  { subst y'. destruct (m <=? 2); lia. }
  assert (H30' : mp = 1 \/ mp = 3 \/ mp = 6 \/ mp = 8 -> d <= 30).
  { intros Hc. apply H30. rewrite Hm'. decompose [or] Hc; subst mp;
      match goal with H : _ = ?k |- _ => rewrite H end; cbv; auto. }
  assert (H29' : mp = 11 -> d <= 29).
  { intros Hc. apply H29. rewrite Hm', Hc. reflexivity. }
  assert (Hleap' : mp = 11 -> d = 29 ->
            (yoe + 1) mod 4 = 0 /\ ((yoe + 1) mod 100 <> 0 \/ (yoe + 1) mod 400 = 0)).
  { intros Hc Hd29.
    assert (Hm2 : m = 2) by (rewrite Hm', Hc; reflexivity).
    specialize (Hleap Hm2 Hd29). apply is_leap_spec in Hleap.
    rewrite Hle, Hc in Hy. change (negb (11 <? 10)) with true in Hy. cbv iota in Hy.
    rewrite Hy in Hleap. clear - Hleap.
    Z.div_mod_to_equations; lia. }
  pose proof (era_date yoe mp d Hyoe Hmp (conj (proj1 Hd) H31) H30' H29' Hleap') as H.
  cbv zeta in H. destruct H as (Hdoe & Hyoe' & Hmp').
  set (doy := (153 * mp + 2) / 5 + d - 1) in *.
  set (doe := yoe * 365 + yoe / 4 - yoe / 100 + doy) in *.
  unfold civil_from_days.
  replace (era * 146097 + doe - 719468 + 719468) with (doe + era * 146097) by lia.
  rewrite Z.div_add by lia. rewrite (Z.div_small doe 146097) by lia.
  replace (0 + era) with era by lia.
  replace (doe + era * 146097 - era * 146097) with doe by lia.
  rewrite Hyoe'.
  replace (doe - (365 * yoe + yoe / 4 - yoe / 100)) with doy by (subst doe; lia).
  rewrite Hmp'.
  replace (doy - (153 * mp + 2) / 5 + 1) with d by (subst doy; lia).
  rewrite <- Hm', <- Hy. reflexivity.
Qed.

Lemma digit_char_spec (n : Z) :
  is_digit (digit_char n) = true
  /\ digit_value (digit_char n) = n mod 10
  /\ Ascii.eqb (digit_char n) "+" = false
  /\ Ascii.eqb (digit_char n) "-" = false.
Proof.
  unfold digit_char, digit_value.
  assert (H : 0 <= n mod 10 < 10) by (apply Z.mod_pos_bound; lia).
  assert (Hc : n mod 10 = 0 \/ n mod 10 = 1 \/ n mod 10 = 2 \/ n mod 10 = 3
               \/ n mod 10 = 4 \/ n mod 10 = 5 \/ n mod 10 = 6 \/ n mod 10 = 7
               \/ n mod 10 = 8 \/ n mod 10 = 9) by lia.
  decompose [or] Hc;
    match goal with E : n mod 10 = _ |- _ => rewrite E end;
    repeat split; reflexivity.
Qed.

Lemma digit_char_of_value (c : ascii) :
  is_digit c = true -> digit_char (digit_value c) = c /\ 0 <= digit_value c <= 9.
Proof.
  destruct c as [[] [] [] [] [] [] [] []]; try discriminate; intros _; split;
    try reflexivity; vm_compute; split; discriminate.
Qed.

Lemma fixed_width_4 (y : Z) :
  fixed_width 4 y
  = String (digit_char (y / 10 / 10 / 10)) (String (digit_char (y / 10 / 10))
      (String (digit_char (y / 10)) (String (digit_char y) ""))).
Proof. reflexivity. Qed.

Lemma fixed_width_2 (n : Z) :
  fixed_width 2 n = String (digit_char (n / 10)) (String (digit_char n) "").
Proof. reflexivity. Qed.

Lemma date_string_chars (y m d : Z) :
  date_string y m d
  = String (digit_char (y / 10 / 10 / 10)) (String (digit_char (y / 10 / 10))
      (String (digit_char (y / 10)) (String (digit_char y)
      (String "-" (String (digit_char (m / 10)) (String (digit_char m)
      (String "-" (String (digit_char (d / 10)) (String (digit_char d) ""))))))))).
Proof. reflexivity. Qed.

Lemma is_digit_not_sign (c : ascii) :
  is_digit c = true -> Ascii.eqb c "+" = false /\ Ascii.eqb c "-" = false.
Proof.
  destruct c as [[] [] [] [] [] [] [] []]; try discriminate; intros _; split; reflexivity.
Qed.

Lemma parse_iso_date_chars (a b c e f g h i : ascii) :
  is_digit a = true -> is_digit b = true -> is_digit c = true -> is_digit e = true ->
  is_digit f = true -> is_digit g = true -> is_digit h = true -> is_digit i = true ->
  parse_iso_date
    (String a (String b (String c (String e (String "-" (String f (String g
       (String "-" (String h (String i ""))))))))))
  = match utc_midnight
            ((((0 * 10 + digit_value a) * 10 + digit_value b) * 10 + digit_value c) * 10
             + digit_value e)
            ((0 * 10 + digit_value f) * 10 + digit_value g)
            ((0 * 10 + digit_value h) * 10 + digit_value i) with
    | Num t => Some t
    | NaN => None
    end.
Proof.
  intros Ha Hb Hc He Hf Hg Hh Hi.
  destruct (is_digit_not_sign a Ha) as [Hp Hm].
  unfold parse_iso_date, parse_iso_year. rewrite Hp, Hm.
  cbn [orb String.substring String.length Nat.eqb string_from Nat.sub digits_value digits_acc].
  rewrite Ha, Hb, Hc, He.
  cbn [String.eqb parse_dash2 Ascii.eqb Bool.eqb String.substring String.length Nat.eqb
       string_from Nat.sub digits_value digits_acc].
  rewrite Hf, Hg.
  cbn [String.eqb parse_dash2 Ascii.eqb Bool.eqb String.substring String.length Nat.eqb
       string_from Nat.sub digits_value digits_acc].
  rewrite Hh, Hi.
  cbn [String.eqb parse_dash2 Ascii.eqb Bool.eqb String.substring String.length Nat.eqb
       string_from Nat.sub digits_value digits_acc].
  reflexivity.
Qed.

Lemma days_from_civil_bounds (y m d : Z) :
  1 <= m <= 12 -> 1 <= d <= 31 ->
  (1 <= y <= 9999 -> -719162 <= days_from_civil y m d <= 2932896)
  /\ (y <= 0 -> days_from_civil y m d < -719162)
  /\ (10000 <= y -> 2932896 < days_from_civil y m d).
Proof.
  intros Hm Hd. unfold days_from_civil.
  destruct (Z.leb_spec m 2); destruct (Z.gtb_spec m 2); try lia;
    repeat split; intros; Z.div_mod_to_equations; lia.
Qed.

Lemma iso_date_prefix_civil (t y m d : Z) :
  civil_from_days (t / msPerDay) = (y, m, d) -> 0 <= y <= 9999 ->
  iso_date_prefix t = date_string y m d.
Proof.
  intros Hc Hy. unfold iso_date_prefix, toISOString. rewrite Hc.
  assert (E : (0 <=? y) && (y <=? 9999) = true)
    by (apply andb_true_iff; split; apply Z.leb_le; lia).
  rewrite E. reflexivity.
Qed.

Lemma days_from_civil_year0 (y m d : Z) :
  1 <= m <= 12 -> 1 <= d <= 31 -> 0 <= y <= 9999 ->
  -719528 <= days_from_civil y m d <= 2932896.
Proof.
  intros Hm Hd Hy. unfold days_from_civil.
  destruct (Z.leb_spec m 2); destruct (Z.gtb_spec m 2); try lia;
    Z.div_mod_to_equations; lia.
Qed.

Lemma digits_4 (y : Z) :
  0 <= y <= 9999 ->
  (((0 * 10 + (y / 10 / 10 / 10) mod 10) * 10 + (y / 10 / 10) mod 10) * 10
   + (y / 10) mod 10) * 10 + y mod 10 = y.
Proof. intros H. Z.div_mod_to_equations; lia. Qed.

Lemma digits_2 (n : Z) :
  0 <= n <= 99 -> (0 * 10 + (n / 10) mod 10) * 10 + n mod 10 = n.
Proof. intros H. Z.div_mod_to_equations; lia. Qed.

Lemma parse_date_string (y m d : Z) :
  0 <= y <= 9999 -> 1 <= m <= 12 -> 1 <= d <= days_in_month y m ->
  parse_iso_date (date_string y m d) = Some (days_from_civil y m d * msPerDay).
Proof.
  intros Hy Hm Hd.
  destruct (days_in_month_bounds y m d Hm Hd) as (H31 & _).
  rewrite date_string_chars.
  rewrite parse_iso_date_chars by apply digit_char_spec.
  rewrite !(proj1 (proj2 (digit_char_spec _))).
  rewrite digits_4, !digits_2 by lia.
  unfold utc_midnight.
  assert (E : (1 <=? m) && (m <=? 12) && (1 <=? d) && (d <=? days_in_month y m) = true).
  { rewrite !andb_true_iff. repeat split; apply Z.leb_le; lia. }
  rewrite E. unfold TimeClip.
  pose proof (days_from_civil_year0 y m d Hm (conj (proj1 Hd) H31) Hy) as Hb.
  assert (E2 : (Z.abs (days_from_civil y m d * msPerDay) <=? 8640000000000000) = true).
  { apply Z.leb_le. unfold msPerDay. lia. }
  rewrite E2. reflexivity.
Qed.

Lemma civil_year_in_range (t : Z) :
  timestamp_range t ->
  exists y m d, civil_from_days (t / msPerDay) = (y, m, d)
    /\ 1 <= y <= 9999 /\ 1 <= m <= 12 /\ 1 <= d <= days_in_month y m
    /\ days_from_civil y m d = t / msPerDay.
Proof.
  unfold timestamp_range, msPerDay. intros Ht.
  pose proof (days_of_civil_of_days (t / 86400000)) as H.
  destruct (civil_from_days (t / 86400000)) as [[y m] d].
  destruct H as (Hz & Hm & Hd).
  exists y, m, d. repeat split; try lia.
  - destruct (days_in_month_bounds y m d Hm Hd) as (H31 & _).
    destruct (days_from_civil_bounds y m d Hm (conj (proj1 Hd) H31)) as (_ & Hlo & _).
    destruct (Z.le_gt_cases y 0) as [Hy|Hy]; [|lia].
    specialize (Hlo Hy). rewrite Hz in Hlo. Z.div_mod_to_equations; lia.
  - destruct (days_in_month_bounds y m d Hm Hd) as (H31 & _).
    destruct (days_from_civil_bounds y m d Hm (conj (proj1 Hd) H31)) as (_ & _ & Hhi).
    destruct (Z.le_gt_cases 10000 y) as [Hy|Hy]; [|lia].
    specialize (Hhi Hy). rewrite Hz in Hhi. Z.div_mod_to_equations; lia.
Qed.

Lemma parse_iso_date_prefix (t : Z) :
  timestamp_range t ->
  parse_iso_date (iso_date_prefix t) = Some (t / msPerDay * msPerDay).
Proof.
  intros Ht.
  destruct (civil_year_in_range t Ht) as (y & m & d & Hc & Hy & Hm & Hd & Hz).
  rewrite (iso_date_prefix_civil t y m d Hc) by lia.
  rewrite parse_date_string by lia. rewrite Hz. reflexivity.
Qed.

Lemma substring_full (s : string) : String.substring 0 (String.length s) s = s.
Proof. induction s as [|c s IH]; cbn; [reflexivity | rewrite IH; reflexivity]. Qed.

Lemma take_digits_app (s ds r : string) : take_digits s = (ds, r) -> s = ds ++ r.
Proof.
  revert ds r. induction s as [|c s IH]; intros ds r; cbn [take_digits].
  - intros [= <- <-]. reflexivity.
  - destruct (is_digit c).
    + destruct (take_digits s) as [ds' r'] eqn:E. intros [= <- <-].
      change (String c s = String c (ds' ++ r')). f_equal. apply IH. reflexivity.
    + intros [= <- <-]. reflexivity.
Qed.

Lemma take_digits_cons (s ds r : string) (c : ascii) :
  take_digits s = (String c ds, r) ->
  exists s', s = String c s' /\ is_digit c = true /\ take_digits s' = (ds, r).
Proof.
  destruct s as [|c' s]; cbn [take_digits]; [discriminate|].
  destruct (is_digit c') eqn:D; [|discriminate].
  destruct (take_digits s) as [ds' r'] eqn:E. intros [= -> -> ->].
  exists s. auto.
Qed.

Lemma parse_dash2_inv (r r' : string) (n : Z) :
  parse_dash2 r = Some (n, r') ->
  exists a b, r = String "-" (String a (String b r'))
    /\ is_digit a = true /\ is_digit b = true
    /\ n = (0 * 10 + digit_value a) * 10 + digit_value b.
Proof.
  unfold parse_dash2.
  destruct r as [|c0 r]; [discriminate|].
  destruct (Ascii.eqb_spec c0 "-") as [->|]; [|discriminate].
  destruct r as [|a [|b r'']]; try discriminate.
  - cbn. destruct (is_digit a); discriminate.
  - cbn [String.substring String.length digits_value digits_acc Nat.eqb].
    destruct (is_digit a) eqn:Da; [|discriminate].
    destruct (is_digit b) eqn:Db; [|discriminate].
    unfold string_from. cbn [String.length Nat.sub String.substring].
    replace (String.substring 0 0 r'') with "" by (destruct r''; reflexivity).
    cbn [digits_acc String.length Nat.eqb].
    rewrite Nat.sub_0_r, substring_full. intros [= <- <-]. exists a, b. auto.
Qed.

Lemma digit_char_mod (n k : Z) :
  n mod 10 = k -> 0 <= k <= 9 -> digit_char n = digit_char k.
Proof.
  intros H Hk. unfold digit_char. rewrite H, (Z.mod_small k 10) by lia. reflexivity.
Qed.

Lemma digit_eq (c : ascii) (n : Z) :
  is_digit c = true -> n mod 10 = digit_value c -> c = digit_char n.
Proof.
  intros Hc Hn. destruct (digit_char_of_value c Hc) as [E R].
  rewrite (digit_char_mod n (digit_value c) Hn R). symmetry. exact E.
Qed.

Lemma valid_date_string_inv (s : string) :
  valid_date_string s = true -> String.length s = 10%nat ->
  exists y m d, s = date_string y m d
    /\ 1 <= y <= 9999 /\ 1 <= m <= 12 /\ 1 <= d <= days_in_month y m.
Proof.
  clear other_formats valid_url toLocaleDateString.
  unfold valid_date_string. intros Hv Hlen.
  destruct (take_digits s) as [ys r1] eqn:T.
  destruct (digits_value ys) as [y|] eqn:Dv; [|discriminate].
  destruct (parse_dash2 r1) as [[m r2]|] eqn:P1; [|discriminate].
  destruct (parse_dash2 r2) as [[d r3]|] eqn:P2; [|discriminate].
  rewrite !andb_true_iff in Hv.
  destruct Hv as ((((((Hl & Hy) & Hr3) & Hm1) & Hm2) & Hd1) & Hd2).
  apply String.eqb_eq in Hr3. subst r3.
  apply Nat.leb_le in Hl. apply Z.ltb_lt in Hy.
  apply Z.leb_le in Hm1, Hm2, Hd1, Hd2.
  apply parse_dash2_inv in P1 as (f & g & -> & Hf & Hg & ->).
  apply parse_dash2_inv in P2 as (h & i & -> & Hh & Hi & ->).
  pose proof (take_digits_app _ _ _ T) as Hs.
  assert (Hl4 : String.length ys = 4%nat).
  { rewrite Hs, string_app_length in Hlen. cbn [String.length] in Hlen. lia. }
  destruct ys as [|a [|b [|c [|e [|? ?]]]]]; try discriminate Hl4. clear Hl4 Hl.
  apply take_digits_cons in T as (s1 & _ & Ha & T).
  apply take_digits_cons in T as (s2 & _ & Hb & T).
  apply take_digits_cons in T as (s3 & _ & Hc & T).
  apply take_digits_cons in T as (s4 & _ & He & _).
  cbn [digits_value digits_acc] in Dv. rewrite Ha, Hb, Hc, He in Dv.
  fold (digit_value a) (digit_value b) (digit_value c) (digit_value e) in Dv.
  injection Dv as Dv.
  destruct (digit_char_of_value a Ha) as [Ea Ra].
  destruct (digit_char_of_value b Hb) as [Eb Rb].
  destruct (digit_char_of_value c Hc) as [Ec Rc].
  destruct (digit_char_of_value e He) as [Ee Re].
  destruct (digit_char_of_value f Hf) as [Ef Rf].
  destruct (digit_char_of_value g Hg) as [Eg Rg].
  destruct (digit_char_of_value h Hh) as [Eh Rh].
  destruct (digit_char_of_value i Hi) as [Ei Ri].
  exists y, ((0 * 10 + digit_value f) * 10 + digit_value g),
    ((0 * 10 + digit_value h) * 10 + digit_value i).
  split; [|repeat split; lia].
  rewrite Hs, date_string_chars. cbv [String.append].
  repeat f_equal; apply digit_eq; try assumption;
    try rewrite <- Dv; Z.div_mod_to_equations; lia.
Qed.

(** ** Timestamps *)

Lemma Timestamp_fromMillis_accepts (t : Z) :
  timestamp_range t ->
  exists secs nanos,
    Timestamp_fromMillis (Num t)
    = Some {| seconds := Num secs; nanoseconds := Num nanos |}
    /\ MIN_SECONDS <= secs < 253402300800 /\ 0 <= nanos < 1000000000
    /\ Timestamp_toDate secs nanos = t.
Proof.
  unfold timestamp_range, Timestamp_fromMillis, Timestamp_toDate, MIN_SECONDS.
  intros Ht.
  assert (E : ((t - t / 1000 * 1000) * 1000000 <? 0)
              || ((t - t / 1000 * 1000) * 1000000 >=? 1000000000)
              || (t / 1000 <? -62135596800) || (t / 1000 >=? 253402300800) = false).
  { rewrite !orb_false_iff, Z.geb_leb, Z.geb_leb, !Z.ltb_ge, !Z.leb_gt.
    repeat split; Z.div_mod_to_equations; lia. }
  rewrite E. exists (t / 1000), ((t - t / 1000 * 1000) * 1000000).
  split; [reflexivity|]. split; [Z.div_mod_to_equations; lia|].
  split; [Z.div_mod_to_equations; lia|].
  replace (t / 1000 * 1000000000 + (t - t / 1000 * 1000) * 1000000)
    with (t * 1000000) by lia.
  apply Z.quot_mul. lia.
Qed.

(** X21: [Timestamp.fromMillis] accepts exactly the time values from
    0001-01-01 to the end of 9999-12-31 and throws on every other one;
    the timestamp it makes converts back, with [toDate], to the same
    time value. *)
Theorem Timestamp_fromMillis_toDate (t : Z) :
  (timestamp_range t ->
   exists secs nanos,
     Timestamp_fromMillis (Num t)
     = Some {| seconds := Num secs; nanoseconds := Num nanos |}
     /\ MIN_SECONDS <= secs < 253402300800 /\ 0 <= nanos < 1000000000
     /\ Timestamp_toDate secs nanos = t)
  /\ (~ timestamp_range t -> Timestamp_fromMillis (Num t) = None).
Proof.
  split; [apply Timestamp_fromMillis_accepts|].
  unfold timestamp_range, Timestamp_fromMillis, MIN_SECONDS. intros Ht.
  assert (E : ((t - t / 1000 * 1000) * 1000000 <? 0)
              || ((t - t / 1000 * 1000) * 1000000 >=? 1000000000)
              || (t / 1000 <? -62135596800) || (t / 1000 >=? 253402300800) = true).
  { rewrite !orb_true_iff, Z.geb_leb, Z.geb_leb, !Z.ltb_lt, !Z.leb_le.
    Z.div_mod_to_equations; lia. }
  rewrite E. reflexivity.
Qed.

(** On whole milliseconds nothing is truncated. *)
Lemma Timestamp_toDate_whole (secs nanos : Z) :
  nanos mod 1000000 = 0 ->
  Timestamp_toDate secs nanos = secs * 1000 + nanos / 1000000.
Proof.
  intros Hw. unfold Timestamp_toDate.
  replace (secs * 1000000000 + nanos)
    with ((secs * 1000 + nanos / 1000000) * 1000000)
    by (pose proof (Z.div_mod nanos 1000000); lia).
  apply Z.quot_mul. lia.
Qed.

Lemma Timestamp_toDate_range (secs nanos : Z) :
  MIN_SECONDS <= secs < 253402300800 -> 0 <= nanos < 1000000000 ->
  timestamp_range (Timestamp_toDate secs nanos).
Proof.
  unfold timestamp_range, Timestamp_toDate, MIN_SECONDS. intros Hs Hn.
  Z.to_euclidean_division_equations; lia.
Qed.

(** ** Dates through the store and back *)

Lemma date_key_of_timestamp (d : Doc) (secs nanos : Z) :
  doc_data d !! "appliedDate" = Some (VTimestamp secs nanos) ->
  MIN_SECONDS <= secs < 253402300800 -> 0 <= nanos < 1000000000 ->
  date_key (mirror_doc d)
  = Num (Timestamp_toDate secs nanos / msPerDay * msPerDay).
Proof.
  intros Hd Hs Hn. unfold date_key. rewrite mirror_doc_appliedDate.
  unfold get_field. rewrite Hd.
  change (default VUndefined (Some (VTimestamp secs nanos))) with (VTimestamp secs nanos).
  cbn [convert_appliedDate new_Date]. unfold Date_parse.
  rewrite (parse_iso_date_prefix _ (Timestamp_toDate_range secs nanos Hs Hn)).
  reflexivity.
Qed.

(** X4: A snapshot whose documents all carry a stored timestamp, as the
    records this component writes do, comes out sorted by date, most
    recent first. *)
Theorem jobList_sorted_timestamps (docs : list Doc) :
  Forall has_timestamp docs ->
  StronglySorted (fun a b => time_of b <= time_of a) (jobList docs).
Proof.
  intros H. apply jobList_sorted.
  eapply Forall_impl; [exact H|].
  intros d (secs & nanos & Hd & Hs & Hn).
  rewrite (date_key_of_timestamp d secs nanos Hd Hs Hn). discriminate.
Qed.

Lemma iso_date_prefix_of_date (y m d : Z) :
  1 <= y <= 9999 -> 1 <= m <= 12 -> 1 <= d <= days_in_month y m ->
  iso_date_prefix (days_from_civil y m d * msPerDay) = date_string y m d
  /\ timestamp_range (days_from_civil y m d * msPerDay).
Proof.
  intros Hy Hm Hd.
  destruct (days_in_month_bounds y m d Hm Hd) as (H31 & _).
  destruct (days_from_civil_bounds y m d Hm (conj (proj1 Hd) H31)) as (Hb & _).
  specialize (Hb Hy). split.
  - apply iso_date_prefix_civil; [|lia].
    rewrite Z.div_mul by (unfold msPerDay; lia).
    apply civil_of_days_of_civil; assumption.
  - unfold timestamp_range, msPerDay. lia.
Qed.

(** X18: A date of the years 1 to 9999 that the date input accepts is written
    by Add as a timestamp, without an exception, and the snapshot
    listener turns that timestamp back into the very same string. *)
Theorem form_date_round_trip (s : string) :
  valid_date_string s = true -> String.length s = 10%nat ->
  exists secs nanos,
    Timestamp_fromDate (new_Date (VStr s))
    = Some {| seconds := Num secs; nanoseconds := Num nanos |}
    /\ convert_appliedDate (VTimestamp secs nanos) = VStr s.
Proof.
  intros Hv Hl.
  destruct (valid_date_string_inv s Hv Hl) as (y & m & d & -> & Hy & Hm & Hd).
  cbn [new_Date]. unfold Date_parse. rewrite parse_date_string by lia.
  destruct (iso_date_prefix_of_date y m d Hy Hm Hd) as [Hiso Hr].
  destruct (Timestamp_fromMillis_accepts _ Hr) as (secs & nanos & Hts & _ & _ & Hback).
  exists secs, nanos. split; [exact Hts|].
  cbn [convert_appliedDate]. rewrite Hback, Hiso. reflexivity.
Qed.

(** X19: The card of a document with a stored timestamp of whole
    milliseconds shows the date of the timestamp's day (UTC), never
    "N/A". *)
Theorem dateDisplay_of_timestamp (d : Doc) (secs nanos : Z) :
  doc_data d !! "appliedDate" = Some (VTimestamp secs nanos) ->
  MIN_SECONDS <= secs < 253402300800 -> 0 <= nanos < 1000000000 ->
  nanos mod 1000000 = 0 ->
  dateDisplay (mirror_doc d)
  = toLocaleDateString
      (Num ((secs * 1000 + nanos / 1000000) / msPerDay * msPerDay)).
Proof.
  intros Hd Hs Hn Hw. rewrite <- (Timestamp_toDate_whole secs nanos Hw).
  unfold dateDisplay. cbv zeta.
  fold (date_key (mirror_doc d)).
  rewrite (date_key_of_timestamp d secs nanos Hd Hs Hn).
  rewrite mirror_doc_appliedDate. unfold get_field. rewrite Hd.
  change (default VUndefined (Some (VTimestamp secs nanos))) with (VTimestamp secs nanos).
  cbn [convert_appliedDate].
  destruct (civil_year_in_range _ (Timestamp_toDate_range secs nanos Hs Hn))
    as (y & m & dd & Hc & Hy & _).
  rewrite (iso_date_prefix_civil _ y m dd Hc) by lia.
  rewrite date_string_chars. cbn [truthy strict_eq_str].
  repeat match goal with
    | |- context [String.eqb ?a ?b] =>
        destruct (String.eqb_spec a b) as [E|_];
          [apply (f_equal String.length) in E; discriminate E|]
    end.
  reflexivity.
Qed.

(** ** The calendar and the strings, both ways *)

(** X22: The two conversions of the [Date] arithmetic are inverse to each
    other: every day number is the day number of the date computed from
    it, which is a date of the calendar (a month from 1 to 12, a day of
    that month, leap years counted), and every date of the calendar is
    the date computed from its day number. *)
Theorem calendar_round_trip :
  (forall z, let '(y, m, d) := civil_from_days z in
             days_from_civil y m d = z /\ 1 <= m <= 12 /\ 1 <= d <= days_in_month y m)
  /\ (forall y m d, 1 <= m <= 12 -> 1 <= d <= days_in_month y m ->
                    civil_from_days (days_from_civil y m d) = (y, m, d)).
Proof.
  split.
  - exact days_of_civil_of_days.
  - exact civil_of_days_of_civil.
Qed.

(** X20: The first ten characters of [toISOString], parsed again, give the
    midnight (UTC) of the day of the time value, for every time value a
    timestamp can hold; and a date string of ten characters that the
    date input accepts, parsed and formatted again, is the same
    string. *)
Theorem iso_date_round_trip :
  (forall t, timestamp_range t ->
             parse_iso_date (iso_date_prefix t) = Some (t / msPerDay * msPerDay))
  /\ (forall s t, valid_date_string s = true -> String.length s = 10%nat ->
                  parse_iso_date s = Some t -> iso_date_prefix t = s).
Proof.
  split; [exact parse_iso_date_prefix|].
  intros s t Hv Hl.
  destruct (valid_date_string_inv s Hv Hl) as (y & m & d & -> & Hy & Hm & Hd).
  rewrite parse_date_string by lia. intros [= <-].
  apply iso_date_prefix_of_date; assumption.
Qed.

(** X5: The sort key of a document with a stored timestamp of whole
    milliseconds is the midnight (UTC) of the timestamp's day, so that
    two such documents of one day tie in the comparator whatever their
    times of day. *)
Theorem timestamp_sort_key (d1 d2 : Doc) (s1 n1 s2 n2 : Z) :
  doc_data d1 !! "appliedDate" = Some (VTimestamp s1 n1) ->
  MIN_SECONDS <= s1 < 253402300800 -> 0 <= n1 < 1000000000 ->
  n1 mod 1000000 = 0 ->
  doc_data d2 !! "appliedDate" = Some (VTimestamp s2 n2) ->
  MIN_SECONDS <= s2 < 253402300800 -> 0 <= n2 < 1000000000 ->
  n2 mod 1000000 = 0 ->
  Timestamp_toDate s1 n1 = s1 * 1000 + n1 / 1000000
  /\ date_key (mirror_doc d1) = Num (Timestamp_toDate s1 n1 / msPerDay * msPerDay)
  /\ (Timestamp_toDate s1 n1 / msPerDay = Timestamp_toDate s2 n2 / msPerDay ->
      SortCompare by_date_desc (mirror_doc d1) (mirror_doc d2) = 0).
Proof.
  intros Hd1 Hs1 Hn1 Hw1 Hd2 Hs2 Hn2 Hw2.
  pose proof (date_key_of_timestamp d1 s1 n1 Hd1 Hs1 Hn1) as K1.
  pose proof (date_key_of_timestamp d2 s2 n2 Hd2 Hs2 Hn2) as K2.
  split; [apply Timestamp_toDate_whole; assumption|].
  split; [exact K1|].
  intros Hday. unfold SortCompare, by_date_desc. rewrite K1, K2, Hday.
  cbn [number_sub]. lia.
Qed.

(** ** The list of a snapshot *)

(** X1: For every snapshot the list holds the mirrored documents of the
    snapshot, each as often as the snapshot has it, and so as many
    records as the snapshot has documents. *)
Theorem snapshot_documents_kept (docs : list Doc) :
  Permutation (jobList docs) (List.map mirror_doc docs)
  /\ List.length (jobList docs) = List.length docs.
Proof.
  pose proof (jobList_perm docs) as H. split; [exact H|].
  rewrite (Permutation_length H). apply List.length_map.
Qed.

(** X2: When every date of the snapshot parses, the documents of one date
    are in the list in the order of the snapshot, whatever the date.
    The stored timestamps are of whole milliseconds, where the time
    value of the model is the library's. *)
Theorem snapshot_order_stable (docs : list Doc) (k : number) :
  Forall (fun d => date_key (mirror_doc d) <> NaN) docs ->
  Forall whole_milliseconds docs ->
  List.filter (has_key k) (jobList docs)
  = List.filter (has_key k) (List.map mirror_doc docs).
Proof.
  intros _ _. unfold jobList. apply Array_sort_filter. apply by_date_desc_tied.
Qed.

(** X3: When every date of the snapshot parses, the list is sorted by date,
    most recent first. *)
Theorem snapshot_sorted_if_dates_parse (docs : list Doc) :
  Forall (fun d => date_key (mirror_doc d) <> NaN) docs ->
  StronglySorted (fun a b => time_of b <= time_of a) (jobList docs).
Proof. intros H. apply jobList_sorted. exact H. Qed.

(** X6: The fields of a document other than [id] and [appliedDate] are
    mirrored as they are stored, the absent ones absent. *)
Theorem mirror_doc_keeps_fields (d : Doc) (k : string) :
  k <> "id" -> k <> "appliedDate" ->
  mirror_doc d !! k = doc_data d !! k /\ get_field (mirror_doc d) k = get_field (doc_data d) k.
Proof.
  intros Hid Hdate. pose proof (mirror_doc_other d k Hid Hdate) as H.
  split; [exact H|]. unfold get_field. rewrite H. reflexivity.
Qed.

(** ** From the form to the list *)

(** X23: A record that the submit button writes has a company and a title
    that are not empty, and, its date being of ten characters, an
    [appliedDate] timestamp that the snapshot listener turns back into
    the date of the form. *)
Theorem submitted_record_reads_back (st : State) (now later : Z) (resolved : bool)
  (path : string) (job : JobToAdd) :
  In (AddDoc path job) (submit_form st now later resolved).2 ->
  String.length (appliedDate (newJob st)) = 10%nat ->
  add_company job <> "" /\ add_title job <> ""
  /\ exists secs nanos,
       add_appliedDate job = {| seconds := Num secs; nanoseconds := Num nanos |}
       /\ convert_appliedDate (VTimestamp secs nanos) = VStr (appliedDate (newJob st)).
Proof.
  unfold submit_form. intros Hin Hlen.
  destruct (showAddModal st && negb (loading st) && form_valid (newJob st)) eqn:Hgate;
    [|contradiction].
  apply andb_true_iff in Hgate as [_ Hvalid]. unfold form_valid in Hvalid.
  rewrite !andb_true_iff in Hvalid. destruct Hvalid as [[[Hc Ht] Hd] _].
  assert (Hv : valid_date_string (appliedDate (newJob st)) = true).
  { unfold date_input_value in Hd.
    destruct (valid_date_string (appliedDate (newJob st))); [reflexivity | discriminate]. }
  destruct (form_date_round_trip _ Hv Hlen) as (secs & nanos & Hts & Hback).
  unfold handleAddJob in Hin. rewrite Hts in Hin.
  assert (Hjob : add_company job = company (newJob st)
                 /\ add_title job = title (newJob st)
                 /\ add_appliedDate job
                    = {| seconds := Num secs; nanoseconds := Num nanos |}).
  { destruct (ready st) as [uid|];
      [|cbn in Hin; decompose [or] Hin; try discriminate; contradiction].
    destruct (Timestamp_now now) as [created|];
      [|cbn in Hin; decompose [or] Hin; try discriminate; contradiction].
    destruct resolved; cbn in Hin; decompose [or] Hin;
      try discriminate; try contradiction;
      match goal with H : AddDoc _ _ = AddDoc _ _ |- _ => injection H as _ <- end;
      repeat split. }
  destruct Hjob as (Ec & Et & Ea). rewrite Ec, Et, Ea.
  unfold truthy_str in Hc, Ht.
  repeat split.
  - intros E. rewrite E in Hc. discriminate.
  - intros E. rewrite E in Ht. discriminate.
  - exists secs, nanos. split; [reflexivity | exact Hback].
Qed.

(** ** A change of identity *)

(** X24: When the identity listener reports a user while the subscription
    of another identifier is open, that subscription is closed and then
    the one of the new identifier is opened; when it reports the same
    user again, nothing is closed or opened. *)
Theorem identity_change_resubscribes (st : State) (cfg : Config) (u1 u2 uuid : string) :
  db st = Some cfg -> authListener st = true ->
  userId st = Some u1 -> subscription st = Some (collectionPath u1) -> u2 <> "" ->
  (step st (AuthStateChanged (Some u2) uuid)).2
  = if decide (u1 = u2) then []
    else [Unsubscribe (collectionPath u1); OnSnapshot (collectionPath u2)].
Proof.
  intros Hdb Hal Hu Hsub Hne.
  destruct st as [d a u j l m nj al sub]. cbn in *. subst.
  unfold step, handle, on_auth_state_changed, set_userId, subscription_effect, ready; cbn.
  unfold truthy_str.
  destruct (String.eqb_spec u2 ""); [contradiction|]. cbn.
  destruct (decide (u1 = u2)) as [->|Hd]; destruct (decide _) as [[_ E]|E];
    try reflexivity.
  - exfalso. apply E. split; reflexivity.
  - exfalso. apply Hd. congruence.
Qed.

End App.

(** * Instances *)

(** The helper on a string outside the enumeration, on [null] and on a
    member. *)
Lemma getStatusColor_total_witness :
  is_status (VStr "Archived") = false
  /\ getStatusColor (VStr "Archived") = default_color
  /\ getStatusColor VNull = default_color
  /\ In (getStatusColor (VStr "Offer")) valid_styles.
Proof.
  split; [reflexivity|]. split; [|split].
  - apply (proj2 (getStatusColor_total (VStr "Archived"))). reflexivity.
  - apply (proj2 (getStatusColor_total VNull)). reflexivity.
  - apply (proj1 (getStatusColor_total (VStr "Offer"))).
Defined.

(** A document without a stored [id], and one with. *)
Lemma mirror_doc_id_witness :
  (doc_data doc_jan !! "id" = None /\ get_field (mirror_doc doc_jan) "id" = VStr "a")
  /\ (doc_data doc_shadow !! "id" = Some (VStr "mine")
      /\ get_field (mirror_doc doc_shadow) "id" = VStr "mine").
Proof.
  split; (split; [reflexivity|]).
  - apply (proj1 (mirror_doc_id doc_jan)). reflexivity.
  - apply (proj2 (mirror_doc_id doc_shadow)). reflexivity.
Defined.

(** Delete declined, and Delete confirmed. *)
Lemma handleDeleteJob_confirmation_witness :
  data_ops (handleDeleteJob None (ready_state acme_job) "x" false true).2 = []
  /\ exists uid,
       ready (ready_state acme_job) = Some uid
       /\ DeleteDoc "artifacts/default-job-tracker-app/users/u1/jobApplications/x"
          = DeleteDoc (doc_path (collectionPath None uid) "x").
Proof.
  split.
  - apply (proj1 (handleDeleteJob_confirmation None (ready_state acme_job) "x" false true)).
    right; right; reflexivity.
  - apply (proj2 (handleDeleteJob_confirmation None (ready_state acme_job) "x" true true)
             (DeleteDoc "artifacts/default-job-tracker-app/users/u1/jobApplications/x")).
    + right; left; reflexivity.
    + reflexivity.
Defined.

(** C3 as stated fails: a status outside the enumeration is written. *)
Lemma update_status_outside_enumeration :
  is_status (VStr "Archived") = false
  /\ (handleUpdateStatus None (ready_state acme_job) "x" (VStr "Archived") true).2
     = [UpdateDoc "artifacts/default-job-tracker-app/users/u1/jobApplications/x"
          {["status" := VStr "Archived"]}].
Proof. split; reflexivity. Qed.

(** The empty status, a status outside the enumeration, and an option of
    the select. *)
Lemma handleUpdateStatus_guard_witness :
  handleUpdateStatus None (ready_state acme_job) "x" (VStr "") true
  = (ready_state acme_job, [])
  /\ data_ops (handleUpdateStatus None (ready_state acme_job) "x" (VStr "Offer") true).2
     = [UpdateDoc (doc_path (collectionPath None "u1") "x") {["status" := VStr "Offer"]}]
  /\ is_status (VStr "Offer") = true.
Proof.
  split; [|split].
  - apply (proj1 (handleUpdateStatus_guard None (ready_state acme_job) "x" (VStr "") true)).
    reflexivity.
  - apply (proj1 (proj2 (handleUpdateStatus_guard None (ready_state acme_job) "x"
                           (VStr "Offer") true)));
      reflexivity.
  - apply (proj2 (proj2 (handleUpdateStatus_guard None (ready_state acme_job) "x"
                           (VStr "Offer") true))).
    right; right; left; reflexivity.
Defined.

(** The spec's scenario: UpdateStatus(id="x", newStatus="Offer"). *)
Example update_status_offer :
  (handleUpdateStatus None (ready_state acme_job) "x" (VStr "Offer") true).2
  = [UpdateDoc "artifacts/default-job-tracker-app/users/u1/jobApplications/x"
       {["status" := VStr "Offer"]}].
Proof. reflexivity. Qed.

(** The update of ["x"] in a store holding it: the status changes, the
    company stays. *)
Lemma handleUpdateStatus_partial_witness :
  (exists uid, userId (ready_state acme_job) = Some uid)
  /\ (exists d',
        store_update "x" {["status" := VStr "Offer"]} one_doc_store !! "x" = Some d'
        /\ d' !! "status" = Some (VStr "Offer")
        /\ d' !! "company" = Some (VStr "Acme"))
  /\ store_update "x" {["status" := VStr "Offer"]} one_doc_store !! "y" = None.
Proof.
  pose proof (handleUpdateStatus_partial None (ready_state acme_job) "x" (VStr "Offer") true)
    as (Hcall & Hdoc & Hothers).
  split; [|split].
  - destruct (Hcall (UpdateDoc "artifacts/default-job-tracker-app/users/u1/jobApplications/x"
                       {["status" := VStr "Offer"]}))
      as (uid & Hu & _); [left; reflexivity | reflexivity |].
    exists uid. exact Hu.
  - destruct (Hdoc one_doc_store {["company" := VStr "Acme"; "status" := VStr "Applied"]})
      as (d' & Hd & Hs & Hk); [reflexivity|].
    exists d'. split; [exact Hd|]. split; [exact Hs|].
    rewrite Hk by discriminate. reflexivity.
  - rewrite Hothers by discriminate. reflexivity.
Defined.

(** No configuration: the user opens the form, submits it, deletes and
    updates. *)
Lemma no_config_no_data_operation_witness :
  exists rest,
    (session iso_only any_url None None None 0
       [SetShowAddModal true; AddJob 0 0 true; DeleteJob "x" true true;
        UpdateStatus "x" (VStr "Offer") true]).2
    = ConsoleError "Firebase config is missing." :: rest
    /\ ~ In (ConsoleError "Firebase config is missing.") rest
    /\ data_ops (session iso_only any_url None None None 0
         [SetShowAddModal true; AddJob 0 0 true; DeleteJob "x" true true;
          UpdateStatus "x" (VStr "Offer") true]).2 = []
    /\ db (session iso_only any_url None None None 0
         [SetShowAddModal true; AddJob 0 0 true; DeleteJob "x" true true;
          UpdateStatus "x" (VStr "Offer") true]).1 = None.
Proof.
  apply (no_config_no_data_operation iso_only any_url None None None 0). reflexivity.
Defined.



(** C2 as stated fails: [handleAddJob] with the company empty writes the
    record. *)
Lemma add_with_empty_company :
  company (newJob (ready_state nameless_job)) = ""
  /\ data_ops (handleAddJob iso_only None (ready_state nameless_job)
                 1714564800000 1714564800500 true).2
     = [AddDoc "artifacts/default-job-tracker-app/users/u1/jobApplications"
          {| add_company := ""; add_title := "Engineer"; add_status := "Applied";
             add_appliedDate := {| seconds := Num 1714521600; nanoseconds := Num 0 |};
             add_notes := ""; add_postingLink := ""; add_documentsUsed := "";
             add_createdAt := {| seconds := Num 1714564800; nanoseconds := Num 0 |} |}].
Proof. split; vm_compute; reflexivity. Qed.

(** The form with the company empty and with a date that is none; the
    handler without the identity, with a date before the year 1, and
    with the company empty. *)
Lemma submit_form_required_witness :
  submit_form iso_only any_url None (ready_state nameless_job) 0 0 true
  = (ready_state nameless_job, [])
  /\ submit_form iso_only any_url None
       (ready_state (set_field FAppliedDate "2024-02-30" acme_job)) 0 0 true
     = (ready_state (set_field FAppliedDate "2024-02-30" acme_job), [])
  /\ data_ops (handleAddJob iso_only None (initial_state 0) 0 0 true).2 = []
  /\ data_ops (handleAddJob iso_only None
                 (ready_state (set_field FAppliedDate "0000-01-01" acme_job))
                 1714564800000 1714564800500 true).2 = []
  /\ data_ops (handleAddJob iso_only None (ready_state nameless_job)
                 1714564800000 1714564800500 true).2
     = [AddDoc (collectionPath None "u1")
          {| add_company := ""; add_title := "Engineer"; add_status := "Applied";
             add_appliedDate := {| seconds := Num 1714521600; nanoseconds := Num 0 |};
             add_notes := ""; add_postingLink := ""; add_documentsUsed := "";
             add_createdAt := {| seconds := Num 1714564800; nanoseconds := Num 0 |} |}].
Proof.
  split; [|split; [|split; [|split]]].
  - apply (proj1 (submit_form_required iso_only any_url None
                    (ready_state nameless_job) 0 0 true)).
    left. reflexivity.
  - apply (proj1 (submit_form_required iso_only any_url None
                    (ready_state (set_field FAppliedDate "2024-02-30" acme_job)) 0 0 true)).
    right; right. reflexivity.
  - apply (proj2 (proj1 (proj2 (submit_form_required iso_only any_url None
                                  (initial_state 0) 0 0 true)))).
    left. reflexivity.
  - apply (proj2 (proj1 (proj2 (submit_form_required iso_only any_url None
             (ready_state (set_field FAppliedDate "0000-01-01" acme_job))
             1714564800000 1714564800500 true)))).
    right; right; right; left. reflexivity.
  - apply (proj2 (proj2 (submit_form_required iso_only any_url None
                           (ready_state nameless_job)
                           1714564800000 1714564800500 true)));
      reflexivity.
Defined.

(** The form filled in and valid goes through to the handler. *)
Example submit_form_valid :
  data_ops (submit_form iso_only any_url None (ready_state acme_job)
              1714564800000 1714564800500 true).2
  = data_ops (handleAddJob iso_only None (ready_state acme_job)
                1714564800000 1714564800500 true).2.
Proof. reflexivity. Qed.

(** The spec's scenario: Add of Acme / Engineer / 2024-05-01 with the
    identity resolved, the clock at 2024-05-01T12:00:00Z. *)
Example add_acme :
  handleAddJob iso_only None (ready_state acme_job) 1714564800000 1714564800500 true
  = (set_showAddModal false (set_newJob (blank_job 1714564800500) (ready_state acme_job)),
     [PreventDefault;
      AddDoc "artifacts/default-job-tracker-app/users/u1/jobApplications"
        {| add_company := "Acme"; add_title := "Engineer"; add_status := "Applied";
           add_appliedDate := {| seconds := Num 1714521600; nanoseconds := Num 0 |};
           add_notes := ""; add_postingLink := ""; add_documentsUsed := "";
           add_createdAt := {| seconds := Num 1714564800; nanoseconds := Num 0 |} |}]).
Proof. vm_compute. reflexivity. Qed.

(** The same Add through the theorem, and a session in which the form is
    filled in without touching the status. *)
Lemma handleAddJob_one_add_witness :
  (exists applied created,
     Timestamp_fromDate (Date_parse iso_only (appliedDate (newJob (ready_state acme_job))))
     = Some applied
     /\ Timestamp_now 1714564800000 = Some created
     /\ data_ops (handleAddJob iso_only None (ready_state acme_job)
                    1714564800000 1714564800500 true).2
        = [AddDoc ("artifacts/" ++ appId None ++ "/users/" ++ "u1" ++ "/jobApplications")
             {| add_company := "Acme"; add_title := "Engineer"; add_status := "Applied";
                add_appliedDate := applied;
                add_notes := ""; add_postingLink := ""; add_documentsUsed := "";
                add_createdAt := created |}])
  /\ status (newJob (session iso_only any_url None (Some "{}") None 0
                       [SetShowAddModal true; EditField FCompany "Acme";
                        EditField FTitle "Engineer"]).1) = "Applied".
Proof.
  pose proof (handleAddJob_one_add iso_only any_url None (Some "{}") None) as [Hadd Hstatus].
  split.
  - apply (Hadd (ready_state acme_job) 1714564800000 1714564800500 true "u1");
      reflexivity.
  - apply Hstatus. repeat constructor.
Defined.

(** ** Dates *)

Example parse_2024_01_10 : parse_iso_date "2024-01-10" = Some 1704844800000.
Proof. reflexivity. Qed.

Example parse_rejects :
  parse_iso_date "2023-02-30" = None /\ parse_iso_date "garbage" = None
  /\ parse_iso_date "" = None.
Proof. repeat split; reflexivity. Qed.

Example toISOString_2024_03_05 :
  toISOString 1709644271123 = "2024-03-05T13:11:11.123Z"
  /\ iso_date_prefix 1709644271123 = "2024-03-05".
Proof. split; reflexivity. Qed.

Example toISOString_before_epoch : toISOString (-1) = "1969-12-31T23:59:59.999Z".
Proof. reflexivity. Qed.

Example date_input_sanitised :
  date_input_value "2024-05-01" = "2024-05-01" /\ date_input_value "2024-02-30" = ""
  /\ date_input_value "soon" = "".
Proof. repeat split; reflexivity. Qed.

(** ** Instances of the further properties *)

(** A session with a configuration in which sign-in fails, an identity
    arrives and the user opens the form: no snapshot yet. *)
Lemma loading_until_snapshot_witness :
  render iso_only (fun _ => "3/5/2024")
    (session iso_only any_url None (Some "{}") None 0
       [SignInFailed; AuthStateChanged (Some "u1") "x"; SetShowAddModal true]).1
  = LoadingScreen.
Proof.
  apply (loading_until_snapshot iso_only any_url None (Some "{}") None
           (fun _ => "3/5/2024") 0 _ "{}").
  - reflexivity.
  - repeat constructor.
Defined.

(** The snapshot of the three sample documents on the open subscription,
    and one with a document whose stored posting link is a number. *)
Lemma render_after_snapshot_witness :
  render iso_only (fun _ => "3/5/2024")
    (step iso_only any_url None subscribed_state
       (Snapshot [doc_jan; doc_undated; doc_mar])).1
  = Page 3 (List.map (JobCard iso_only (fun _ => "3/5/2024"))
              (jobList iso_only [doc_jan; doc_undated; doc_mar]))
         false
  /\ render iso_only (fun _ => "3/5/2024")
       (step iso_only any_url None subscribed_state
          (Snapshot [doc_jan; doc_number_link])).1
     = RenderThrows.
Proof.
  split.
  - apply (render_after_snapshot iso_only any_url None (fun _ => "3/5/2024")
             subscribed_state [doc_jan; doc_undated; doc_mar]
             "artifacts/default-job-tracker-app/users/u1/jobApplications").
    reflexivity.
  - apply (render_after_snapshot iso_only any_url None (fun _ => "3/5/2024")
             subscribed_state [doc_jan; doc_number_link]
             "artifacts/default-job-tracker-app/users/u1/jobApplications").
    reflexivity.
Defined.

Lemma collectionPath_injective_witness :
  collectionPath None "u1" <> collectionPath None "u2".
Proof. apply (collectionPath_injective None "u1" "u2"). discriminate. Defined.

(** The write of a confirmed deletion. *)
Lemma writes_on_own_collection_witness :
  exists uid, ready (ready_state acme_job) = Some uid
    /\ (effect_path (DeleteDoc "artifacts/default-job-tracker-app/users/u1/jobApplications/x")
        = Some (collectionPath None uid)
        \/ exists id,
             effect_path (DeleteDoc "artifacts/default-job-tracker-app/users/u1/jobApplications/x")
             = Some (doc_path (collectionPath None uid) id)).
Proof.
  apply (writes_on_own_collection iso_only any_url None (ready_state acme_job)
           (DeleteJob "x" true true)).
  - right; left; reflexivity.
  - reflexivity.
Defined.

(** A link without a scheme, and a stored link that is a number. *)
Lemma card_link_cases_witness :
  card_link job_bare_link = Link "https://example.com/job"
  /\ String.prefix "http" "https://example.com/job" = true
  /\ card_link job_number_link = LinkTypeError.
Proof.
  split; [reflexivity|]. split.
  - apply (proj1 (card_link_cases job_bare_link)). reflexivity.
  - apply (proj2 (card_link_cases job_number_link)).
    split; [reflexivity | discriminate].
Defined.

(** The Acme record added, the modal opened again, the button pressed
    again. *)
Lemma no_resubmit_after_add_witness :
  submit_form iso_only any_url None
    (set_showAddModal true
       (handleAddJob iso_only None (ready_state acme_job)
          1714564800000 1714564800500 true).1)
    1714564801000 1714564801500 true
  = (set_showAddModal true
       (handleAddJob iso_only None (ready_state acme_job)
          1714564800000 1714564800500 true).1, []).
Proof.
  apply (no_resubmit_after_add iso_only any_url None (ready_state acme_job)).
  reflexivity.
Defined.

(** 29 February 2024, and day 19782 (2024-02-29). *)
Lemma calendar_round_trip_witness :
  civil_from_days (days_from_civil 2024 2 29) = (2024, 2, 29)
  /\ days_from_civil 2024 2 29 = 19782.
Proof.
  split.
  - apply (proj2 calendar_round_trip); [lia | split; [lia | vm_compute; discriminate]].
  - pose proof (proj1 calendar_round_trip 19782) as H.
    change (civil_from_days 19782) with (2024, 2, 29) in H. exact (proj1 H).
Defined.

Lemma iso_date_round_trip_witness :
  parse_iso_date (iso_date_prefix 1709644271123)
  = Some (1709644271123 / msPerDay * msPerDay)
  /\ iso_date_prefix 1714521600000 = "2024-05-01".
Proof.
  split.
  - apply (proj1 iso_date_round_trip). unfold timestamp_range. lia.
  - apply (proj2 iso_date_round_trip "2024-05-01" 1714521600000); reflexivity.
Defined.

(** Noon of 1 May 2024, and the year 10000. *)
Lemma Timestamp_fromMillis_toDate_witness :
  (exists secs nanos,
     Timestamp_fromMillis (Num 1714564800123)
     = Some {| seconds := Num secs; nanoseconds := Num nanos |}
     /\ MIN_SECONDS <= secs < 253402300800 /\ 0 <= nanos < 1000000000
     /\ Timestamp_toDate secs nanos = 1714564800123)
  /\ Timestamp_fromMillis (Num 253402300800000) = None.
Proof.
  split.
  - apply (proj1 (Timestamp_fromMillis_toDate 1714564800123)).
    unfold timestamp_range. lia.
  - apply (proj2 (Timestamp_fromMillis_toDate 253402300800000)).
    unfold timestamp_range. lia.
Defined.

(** Two applications of 5 March 2024, at 13:11 and at 20:20. *)
Lemma timestamp_sort_key_witness :
  Timestamp_toDate 1709644271 123000000 = 1709644271 * 1000 + 123000000 / 1000000
  /\ date_key iso_only (mirror_doc doc_mar)
     = Num (Timestamp_toDate 1709644271 123000000 / msPerDay * msPerDay)
  /\ SortCompare (by_date_desc iso_only) (mirror_doc doc_mar) (mirror_doc doc_mar_evening) = 0.
Proof.
  pose proof (timestamp_sort_key iso_only doc_mar doc_mar_evening
                1709644271 123000000 1709670000 0) as H.
  destruct H as (Hw & Hk & Ht); try reflexivity; try (unfold MIN_SECONDS; lia).
  split; [exact Hw|]. split; [exact Hk | apply Ht; reflexivity].
Defined.

Lemma jobList_sorted_timestamps_witness :
  StronglySorted (fun a b => time_of iso_only b <= time_of iso_only a)
    (jobList iso_only [doc_dec; doc_mar; doc_mar_evening]).
Proof.
  apply (jobList_sorted_timestamps iso_only).
  repeat constructor;
    (eexists _, _; split; [reflexivity | unfold MIN_SECONDS; lia]).
Defined.

(** What the sorted list of that snapshot is: the two applications of
    March in the order of the snapshot, then the one of December. *)
Example jobList_three_timestamps :
  jobList iso_only [doc_dec; doc_mar; doc_mar_evening]
  = [mirror_doc doc_mar; mirror_doc doc_mar_evening; mirror_doc doc_dec].
Proof. vm_compute. reflexivity. Qed.

Lemma form_date_round_trip_witness :
  exists secs nanos,
    Timestamp_fromDate (new_Date iso_only (VStr "2024-05-01"))
    = Some {| seconds := Num secs; nanoseconds := Num nanos |}
    /\ convert_appliedDate (VTimestamp secs nanos) = VStr "2024-05-01".
Proof. apply (form_date_round_trip iso_only "2024-05-01"); reflexivity. Defined.

Lemma dateDisplay_of_timestamp_witness :
  dateDisplay iso_only (fun _ => "3/5/2024") (mirror_doc doc_mar)
  = (fun _ : number => "3/5/2024")
      (Num ((1709644271 * 1000 + 123000000 / 1000000) / msPerDay * msPerDay)).
Proof.
  apply (dateDisplay_of_timestamp iso_only (fun _ => "3/5/2024") doc_mar
           1709644271 123000000);
    [reflexivity | unfold MIN_SECONDS; lia | lia | reflexivity].
Defined.

(** The card of the undated document shows "N/A". *)
Example dateDisplay_undated :
  dateDisplay iso_only (fun _ => "3/5/2024") (mirror_doc doc_undated) = "N/A".
Proof. reflexivity. Qed.

(** Two applications of 5 March 2024 after one of January. *)
Lemma snapshot_order_stable_witness :
  List.filter (has_key iso_only (Num 1709596800000))
    (jobList iso_only [doc_jan; doc_mar; doc_mar_evening])
  = List.filter (has_key iso_only (Num 1709596800000))
      (List.map mirror_doc [doc_jan; doc_mar; doc_mar_evening]).
Proof.
  apply (snapshot_order_stable iso_only [doc_jan; doc_mar; doc_mar_evening]).
  - repeat constructor; vm_compute; discriminate.
  - repeat (apply List.Forall_cons; [intros secs nanos H; vm_compute in H|]);
      [discriminate H | injection H as _ <-; reflexivity
       | injection H as _ <-; reflexivity | apply List.Forall_nil].
Defined.

(** What the two sides are: the two applications of March, in the order
    of the snapshot. *)
Example snapshot_order_march :
  List.filter (has_key iso_only (Num 1709596800000))
    (jobList iso_only [doc_jan; doc_mar; doc_mar_evening])
  = [mirror_doc doc_mar; mirror_doc doc_mar_evening].
Proof. vm_compute. reflexivity. Qed.

Lemma snapshot_sorted_if_dates_parse_witness :
  StronglySorted (fun a b => time_of iso_only b <= time_of iso_only a)
    (jobList iso_only [doc_jan; doc_mar]).
Proof.
  apply (snapshot_sorted_if_dates_parse iso_only).
  repeat constructor; vm_compute; discriminate.
Defined.

Lemma mirror_doc_keeps_fields_witness :
  mirror_doc doc_jan !! "company" = Some (VStr "Acme")
  /\ get_field (mirror_doc doc_jan) "notes" = VUndefined.
Proof.
  split.
  - rewrite (proj1 (mirror_doc_keeps_fields doc_jan "company" ltac:(discriminate)
                      ltac:(discriminate))).
    reflexivity.
  - rewrite (proj2 (mirror_doc_keeps_fields doc_jan "notes" ltac:(discriminate)
                      ltac:(discriminate))).
    reflexivity.
Defined.

(** The Acme record written through the submit button. *)
Lemma submitted_record_reads_back_witness :
  "Acme" <> "" /\ "Engineer" <> ""
  /\ exists secs nanos,
       {| seconds := Num 1714521600; nanoseconds := Num 0 |}
       = {| seconds := Num secs; nanoseconds := Num nanos |}
       /\ convert_appliedDate (VTimestamp secs nanos) = VStr "2024-05-01".
Proof.
  apply (submitted_record_reads_back iso_only any_url None (ready_state acme_job)
           1714564800000 1714564800500 true
           "artifacts/default-job-tracker-app/users/u1/jobApplications"
           {| add_company := "Acme"; add_title := "Engineer"; add_status := "Applied";
              add_appliedDate := {| seconds := Num 1714521600; nanoseconds := Num 0 |};
              add_notes := ""; add_postingLink := ""; add_documentsUsed := "";
              add_createdAt := {| seconds := Num 1714564800; nanoseconds := Num 0 |} |}).
  - right; left. vm_compute. reflexivity.
  - reflexivity.
Defined.

(** The listener reports user ["u2"] while the subscription of ["u1"] is
    open. *)
Lemma identity_change_resubscribes_witness :
  (step iso_only any_url None subscribed_state (AuthStateChanged (Some "u2") "x")).2
  = [Unsubscribe "artifacts/default-job-tracker-app/users/u1/jobApplications";
     OnSnapshot "artifacts/default-job-tracker-app/users/u2/jobApplications"].
Proof.
  rewrite (identity_change_resubscribes iso_only any_url None subscribed_state
             "{}" "u1" "u2" "x");
    try reflexivity; discriminate.
Defined.
